(** * jsonx: path-based accessors over JSON files

    A shallow embedding of [_core/jsonx.py].  Python values are an inductive
    type, Python dictionaries are insertion-ordered association lists,
    exceptions are values of the type [exn] carried by an error monad, and
    the files touched by the public functions live in a finite map from
    paths to their text. *)

From Stdlib Require Import ZArith String Ascii List.
From Stdlib Require Floats.PrimFloat Floats.SpecFloat Floats.FloatOps.
From stdpp Require Import base decidable option list strings pretty gmap.

Local Open Scope string_scope.
Local Open Scope list_scope.

(** ** Python values *)

(** The runtime types the module distinguishes with [type(...)].  The first
    seven are the ones [json.load] produces; [tuple] and [bytes] stand for
    the other objects a caller can hand to [addProperty] and [addObject]. *)
Inductive pytype : Set :=
| TNoneType | TFloat | TInt | TList | TBool | TStr | TDict | TTuple | TBytes.

#[global] Instance pytype_eq_dec : EqDecision pytype.
Proof. solve_decision. Defined.

#[warnings="-register-all"]
Inductive pyval : Type :=
| PNone
| PBool (b : bool)
| PInt (n : Z)
| PFloat (x : PrimFloat.float)
| PStr (s : string)
| PList (items : list pyval)
| PDict (items : list (string * pyval))
| PTuple (items : list pyval)
| PBytes (b : string).

(** [type(rawData)] *)
Definition type_of (rawData : pyval) : pytype :=
  match rawData with
  | PNone => TNoneType
  | PBool _ => TBool
  | PInt _ => TInt
  | PFloat _ => TFloat
  | PStr _ => TStr
  | PList _ => TList
  | PDict _ => TDict
  | PTuple _ => TTuple
  | PBytes _ => TBytes
  end.

(** ** Exceptions *)

(** The four exception classes of the module are recorded with the
    arguments of their constructors; the built-in ones with what identifies
    them. *)
Inductive exn : Type :=
| NotAPropertyError (noPropertyObject : pyval)
| NotAObjectError (noObject : pyval)
| JSONKeyNotFoundError (wrongKey : string) (allKeysOfObject : list string)
    (foundKeys : list string)
| JSONKeyAlreadyExists (doubleKey : string) (allKeysOfObject : list string)
    (foundKeys : list string)
| FileNotFoundError (filePath : string)
| JSONDecodeError
| TypeError (offending : pytype)
| AttributeError (receiver : pytype) (attribute : string)
| IndexError
| KeyError (key : string).

Inductive result (A : Type) : Type :=
| Ok (a : A)
| Raise (e : exn).
Arguments Ok {A} a.
Arguments Raise {A} e.

Definition rbind {A B} (m : result A) (k : A -> result B) : result B :=
  match m with
  | Ok a => k a
  | Raise e => Raise e
  end.

Notation "'let?' x ':=' m 'in' k" := (rbind m (fun x => k))
  (at level 10, x name, m at level 100, k at level 200).

(** [try: body  except <class>: handler]; the handler answers [None] for an
    exception whose class the [except] clause does not name. *)
Definition try_except {A} (body : result A)
    (handler : exn -> option (result A)) : result A :=
  match body with
  | Ok a => Ok a
  | Raise e => match handler e with
               | Some r => r
               | None => Raise e
               end
  end.

(** ** Dictionaries *)

(** [object.keys()], in insertion order *)
Definition dict_keys (items : list (string * pyval)) : list string :=
  items.*1.

(** [object[key]] on a dictionary *)
Fixpoint dict_get (items : list (string * pyval)) (key : string)
    : option pyval :=
  match items with
  | [] => None
  | (k, v) :: rest => if bool_decide (k = key) then Some v
                      else dict_get rest key
  end.

(** [object[key] = value] on a dictionary: an existing key keeps its
    position, a new one goes to the end. *)
Fixpoint dict_set (items : list (string * pyval)) (key : string)
    (value : pyval) : list (string * pyval) :=
  match items with
  | [] => [(key, value)]
  | (k, v) :: rest => if bool_decide (k = key) then (k, value) :: rest
                      else (k, v) :: dict_set rest key value
  end.

(** The dictionary with the value under [key] replaced by [f] of it. *)
Fixpoint dict_alter (f : pyval -> pyval) (items : list (string * pyval))
    (key : string) : list (string * pyval) :=
  match items with
  | [] => []
  | (k, v) :: rest => if bool_decide (k = key) then (k, f v) :: rest
                      else (k, v) :: dict_alter f rest key
  end.

(** ** The classifiers and the key test *)

Definition _isJSONProperty (rawData : pyval) : bool :=
  bool_decide
    (type_of rawData ∈ [TNoneType; TFloat; TInt; TList; TBool; TStr]).

Definition _isJSONObject (rawData : pyval) : bool :=
  bool_decide (type_of rawData = TDict).

(** [tuple(object.keys())]: only a dictionary has the attribute. *)
Definition keys_of (object : pyval) : result (list string) :=
  match object with
  | PDict items => Ok (dict_keys items)
  | _ => Raise (AttributeError (type_of object) "keys")
  end.

Definition _containsKey (object : pyval) (key : string) : result bool :=
  let? ks := keys_of object in
  Ok (bool_decide (key ∈ ks)).

(** [object[key]] *)
Definition getitem (object : pyval) (key : string) : result pyval :=
  match object with
  | PDict items => match dict_get items key with
                   | Some v => Ok v
                   | None => Raise (KeyError key)
                   end
  | _ => Raise (TypeError (type_of object))
  end.

Definition _indentLevel : nat := 4.

(** ** Path resolution *)

(** The loop of [_getValueOfKeys]: [i] is the loop index, [rest] the keys
    [keys[i:]] still to be visited. *)
Fixpoint _getValueOfKeys_loop (rawData : pyval) (keys : list string)
    (i : nat) (rest : list string) (currentObject : pyval) : result pyval :=
  match rest with
  | [] => Ok currentObject
  | key :: rest' =>
      let? found := _containsKey currentObject key in
      if negb found then
        let? allKeys := keys_of rawData in
        Raise (JSONKeyNotFoundError key allKeys (take i keys))
      else
        let? next := getitem currentObject key in
        _getValueOfKeys_loop rawData keys (S i) rest' next
  end.

Definition _getValueOfKeys (rawData : pyval) (keys : list string)
    : result pyval :=
  _getValueOfKeys_loop rawData keys 0 keys rawData.

(** [keys[-1]] *)
Definition last_key (keys : list string) : result string :=
  match last keys with
  | Some k => Ok k
  | None => Raise IndexError
  end.

(** [keys[:-1]] *)
Definition init_keys (keys : list string) : list string := removelast keys.

(** [parentObject[key] = value], where [parentObject] is the dictionary that
    [_getValueOfKeys rawData keys] returned.  That dictionary is not a copy:
    it is the very object stored inside [rawData], so the assignment is seen
    through [rawData].  A loaded document is a tree, hence the reference is
    determined by the path [keys] that led to it, and the assignment is
    written through that path. *)
Fixpoint setitem_at (rawData : pyval) (keys : list string) (key : string)
    (value : pyval) : pyval :=
  match rawData with
  | PDict items =>
      match keys with
      | [] => PDict (dict_set items key value)
      | k :: keys' =>
          PDict (dict_alter (fun child => setitem_at child keys' key value)
                   items k)
      end
  | _ => rawData
  end.

(** The node a path leads to, when every key on the way is present in a
    dictionary. *)
Fixpoint lookup_path (rawData : pyval) (keys : list string) : option pyval :=
  match keys with
  | [] => Some rawData
  | k :: keys' =>
      match rawData with
      | PDict items => match dict_get items k with
                       | Some child => lookup_path child keys'
                       | None => None
                       end
      | _ => None
      end
  end.

(** ** Files *)

(** The state of the storage: the text of every file that exists. *)
Abbreviation filesystem := (gmap string string).

(** A computation that may read and write files and may raise. *)
Definition IO (A : Type) : Type := filesystem -> result A * filesystem.

Definition ret {A} (a : A) : IO A := fun fs => (Ok a, fs).

Definition raise {A} (e : exn) : IO A := fun fs => (Raise e, fs).

Definition bind {A B} (m : IO A) (k : A -> IO B) : IO B :=
  fun fs => match m fs with
            | (Ok a, fs') => k a fs'
            | (Raise e, fs') => (Raise e, fs')
            end.

(** A computation that touches no file. *)
Definition lift {A} (r : result A) : IO A := fun fs => (r, fs).

Notation "'let*' x ':=' m 'in' k" := (bind m (fun x => k))
  (at level 10, x name, m at level 100, k at level 200).

Definition io_try_except {A} (body : IO A)
    (handler : exn -> option (IO A)) : IO A :=
  fun fs => match body fs with
            | (Ok a, fs') => (Ok a, fs')
            | (Raise e, fs') => match handler e with
                                | Some h => h fs'
                                | None => (Raise e, fs')
                                end
            end.

(** [filePath.exists()] *)
Definition exists_ (filePath : string) : IO bool :=
  fun fs => (Ok (bool_decide (is_Some (fs !! filePath))), fs).

(** The text of a file opened for reading; [open] itself raises
    [FileNotFoundError] on a missing file. *)
Definition open_read (filePath : string) : IO string :=
  fun fs => match fs !! filePath with
            | Some text => (Ok text, fs)
            | None => (Raise (FileNotFoundError filePath), fs)
            end.

(** Opening for writing truncates the file; what is written before the
    file is closed becomes its text. *)
Definition open_write (filePath : string) (text : string) : IO unit :=
  fun fs => (Ok tt, <[filePath := text]> fs).

(** What an operation on [filePath] may do to the storage: no file appears
    or disappears, and every other file keeps its text. *)
Definition keeps_other_files (filePath : string) (fs fs' : filesystem)
    : Prop :=
  dom fs' = dom fs /\
  forall other : string, other <> filePath -> fs' !! other = fs !! other.

Section Jsonx.

(** The two calls into the [json] library.  [load] parses a text, [None]
    standing for [JSONDecodeError]; [dump] gives the text it writes and the
    exception it ends with, if any (an object it cannot serialise); its
    first argument is [indent]. *)
Variable load : string -> option pyval.
Variable dump : nat -> pyval -> string * option exn.

Definition readJSONFile (filePath : string) : IO pyval :=
  let* present := exists_ filePath in
  if negb present then raise (FileNotFoundError filePath)
  else
    let* text := open_read filePath in
    match load text with
    | Some data => ret data
    | None => raise JSONDecodeError
    end.

Definition writeJSONFile (filePath : string) (data : pyval) : IO unit :=
  let* present := exists_ filePath in
  if negb present then raise (FileNotFoundError filePath)
  else
    let '(text, failure) := dump _indentLevel data in
    let* _ := open_write filePath text in
    match failure with
    | None => ret tt
    | Some e => raise e
    end.

Definition getProperty (filePath : string) (keys : list string) : IO pyval :=
  let* rawData := readJSONFile filePath in
  let* property := lift (_getValueOfKeys rawData keys) in
  if _isJSONObject property then raise (NotAPropertyError property)
  else ret property.

Definition setProperty (filePath : string) (keys : list string)
    (value : pyval) : IO unit :=
  let* rawData := readJSONFile filePath in
  let* parentObject := lift (_getValueOfKeys rawData (init_keys keys)) in
  let* key := lift (last_key keys) in
  let* found := lift (_containsKey parentObject key) in
  if negb found then
    let* allKeys := lift (keys_of parentObject) in
    raise (JSONKeyNotFoundError key allKeys (init_keys keys))
  else
    let* current := lift (getitem parentObject key) in
    if _isJSONObject current then raise (NotAPropertyError current)
    else writeJSONFile filePath
           (setitem_at rawData (init_keys keys) key value).

Definition addProperty (filePath : string) (keys : list string)
    (newKey : string) (value : pyval) : IO unit :=
  let* rawData := readJSONFile filePath in
  let* parentObject := lift (_getValueOfKeys rawData keys) in
  let* found := lift (_containsKey parentObject newKey) in
  if found then
    let* allKeys := lift (keys_of parentObject) in
    raise (JSONKeyAlreadyExists newKey allKeys keys)
  else if negb (_isJSONProperty value) then raise (TypeError (type_of value))
  else writeJSONFile filePath (setitem_at rawData keys newKey value).

Definition containsProperty (filePath : string) (keys : list string)
    : IO bool :=
  let* rawData := readJSONFile filePath in
  lift (try_except
          (let? value := _getValueOfKeys rawData keys in
           Ok (_isJSONProperty value))
          (fun ex => match ex with
                     | JSONKeyNotFoundError _ _ _ => Some (Ok false)
                     | _ => None
                     end)).

Definition getObject (filePath : string) (keys : list string) : IO pyval :=
  let* rawData := readJSONFile filePath in
  let* object := lift (_getValueOfKeys rawData keys) in
  if _isJSONProperty object then raise (NotAObjectError object)
  else ret object.

Definition setObject (filePath : string) (keys : list string)
    (object : pyval) : IO unit :=
  let* rawData := readJSONFile filePath in
  let* parentObject := lift (_getValueOfKeys rawData (init_keys keys)) in
  let* key := lift (last_key keys) in
  let* found := lift (_containsKey parentObject key) in
  if negb found then
    let* allKeys := lift (keys_of parentObject) in
    raise (JSONKeyNotFoundError key allKeys (init_keys keys))
  else
    let* current := lift (getitem parentObject key) in
    if _isJSONProperty current then raise (NotAObjectError current)
    else writeJSONFile filePath
           (setitem_at rawData (init_keys keys) key object).

Definition addObject (filePath : string) (keys : list string)
    (newKey : string) (object : pyval) : IO unit :=
  let* rawData := readJSONFile filePath in
  let* parentObject := lift (_getValueOfKeys rawData keys) in
  let* found := lift (_containsKey parentObject newKey) in
  if found then
    let* allKeys := lift (keys_of parentObject) in
    raise (JSONKeyAlreadyExists newKey allKeys keys)
  else if negb (_isJSONObject object) then raise (TypeError (type_of object))
  else writeJSONFile filePath (setitem_at rawData keys newKey object).

Definition containsObject (filePath : string) (keys : list string)
    : IO bool :=
  let* rawData := readJSONFile filePath in
  lift (try_except
          (let? value := _getValueOfKeys rawData keys in
           Ok (_isJSONObject value))
          (fun ex => match ex with
                     | JSONKeyNotFoundError _ _ _ => Some (Ok false)
                     | _ => None
                     end)).

(** The [return False] of the handler leaves the function; [returned] is
    the value it left with, if it did. *)
Definition isFormatCorrect (filePath : string) : IO bool :=
  let* _ := open_read filePath in
  let* returned :=
    io_try_except
      (let* _ := readJSONFile filePath in ret None)
      (fun ex => match ex with
                 | JSONDecodeError => Some (ret (Some false))
                 | _ => None
                 end) in
  match returned with
  | Some answer => ret answer
  | None => ret true
  end.

Definition indentJSONFile (filePath : string) : IO unit :=
  let* data := readJSONFile filePath in
  writeJSONFile filePath data.

End Jsonx.

(** ** An instance of the [json] library

    [JsonLib.load] and [JsonLib.dump] follow the library's decoder and its
    indenting encoder, for strings over the code points below 256 (an
    escape for a higher one is rejected).  They are what the examples below
    put in place of the two library calls. *)
Module JsonLib.

Definition quote : ascii := "034"%char.
Definition backslash : ascii := "092"%char.

Definition code (c : ascii) : Z := Z.of_N (N_of_ascii c).

Definition hex_digit (n : Z) : ascii :=
  ascii_of_N (Z.to_N (if (n <? 10)%Z then 48 + n else 87 + n)%Z).

Definition hex_value (c : ascii) : option Z :=
  let n := code c in
  if ((48 <=? n) && (n <=? 57))%Z then Some (n - 48)%Z
  else if ((97 <=? n) && (n <=? 102))%Z then Some (n - 87)%Z
  else if ((65 <=? n) && (n <=? 70))%Z then Some (n - 55)%Z
  else None.

(** *** Floating-point numbers

    The digits of [float.__repr__]: the shortest decimal that reads back as
    the same double, found with exact integer arithmetic. *)

Local Open Scope Z_scope.

(** [10 ^ p <= num / den], for any sign of [p] *)
Definition pow10_le (p num den : Z) : bool :=
  if 0 <=? p then 10 ^ p * den <=? num else den <=? num * 10 ^ (- p).

(** The nearest double to [num / den], ties to even. *)
Definition nearest_double (negative : bool) (num den : Z)
    : PrimFloat.float :=
  if num =? 0 then (if negative then PrimFloat.neg_zero else PrimFloat.zero)
  else
    let quotient (E : Z) : Z * Z * Z :=
      let '(n, d) := if 0 <=? E then (num, den * 2 ^ E)
                     else (num * 2 ^ (- E), den) in
      let '(q, r) := Z.div_eucl n d in (q, r, d) in
    let E1 := Z.max (Z.log2 num - Z.log2 den - 52) (-1074) in
    let E := if (E1 >? -1074) && (fst (fst (quotient E1)) <? 2 ^ 52)
             then E1 - 1 else E1 in
    let '(q, r, d) := quotient E in
    let m := if (d <? 2 * r) || ((d =? 2 * r) && Z.odd q) then q + 1 else q in
    match m with
    | Zpos p => FloatOps.SF2Prim (SpecFloat.S754_finite negative p E)
    | _ => if negative then PrimFloat.neg_zero else PrimFloat.zero
    end.

(** [c * 10 ^ k] as a fraction *)
Definition decimal_ratio (c k : Z) : Z * Z :=
  if 0 <=? k then (c * 10 ^ k, 1) else (c, 10 ^ (- k)).

Definition round_trips (x : PrimFloat.float) (c k : Z) : bool :=
  let '(n, d) := decimal_ratio c k in
  PrimFloat.eqb (nearest_double false n d) x.

(** The shortest decimal [c * 10 ^ k], from [n] digits on, that reads back
    as the positive finite [x = num / den]; of two with the same number of
    digits, the nearer. *)
Fixpoint shortest_from (x : PrimFloat.float) (num den p10 : Z) (n : Z)
    (fuel : nat) : Z * Z :=
  let k := p10 - (n - 1) in
  let q := if 0 <=? k then num / (den * 10 ^ k)
           else (num * 10 ^ (- k)) / den in
  match fuel with
  | O => (q, k)
  | S fuel' =>
      let low := round_trips x q k in
      let high := round_trips x (q + 1) k in
      let upper_nearer :=
        if 0 <=? k then (2 * q + 1) * 10 ^ k * den <? 2 * num
        else (2 * q + 1) * den <? 2 * num * 10 ^ (- k) in
      if low && high then (if upper_nearer then (q + 1, k) else (q, k))
      else if low then (q, k)
      else if high then (q + 1, k)
      else shortest_from x num den p10 (n + 1) fuel'
  end.

Fixpoint strip_zeros (fuel : nat) (c k : Z) : Z * Z :=
  match fuel with
  | O => (c, k)
  | S fuel' => if (c mod 10 =? 0) && negb (c =? 0)
               then strip_zeros fuel' (c / 10) (k + 1) else (c, k)
  end.

Fixpoint zeros (n : nat) : string :=
  match n with O => "" | S n' => String "0" (zeros n') end.

(** [float.__repr__] *)
Definition float_repr (x : PrimFloat.float) : string :=
  match FloatOps.Prim2SF x with
  | SpecFloat.S754_nan => "nan"
  | SpecFloat.S754_infinity s => if s then "-inf" else "inf"
  | SpecFloat.S754_zero s => if s then "-0.0" else "0.0"
  | SpecFloat.S754_finite s m e =>
      let '(num, den) := if 0 <=? e then (Zpos m * 2 ^ e, 1)
                         else (Zpos m, 2 ^ (- e)) in
      let est := ((Z.log2 num - Z.log2 den) * 30103) / 100000 in
      let p10 := if pow10_le (est + 1) num den then est + 1
                 else if pow10_le est num den then est else est - 1 in
      let '(c0, k0) := shortest_from (PrimFloat.abs x) num den p10 1 17 in
      let '(c, k) := strip_zeros 20 c0 k0 in
      let ds : string := pretty c in
      let nd := Z.of_nat (String.length ds) in
      let decpt := nd + k in
      let body :=
        if (decpt <=? -4) || (16 <? decpt) then
          let exponent := decpt - 1 in
          let es : string := pretty (Z.abs exponent) in
          match ds with
          | String d rest =>
              String d (if (1 <? nd) then "." +:+ rest else "")
              +:+ "e" +:+ (if exponent <? 0 then "-" else "+")
              +:+ (if Z.abs exponent <? 10 then "0" else "") +:+ es
          | EmptyString => ""
          end
        else if decpt <=? 0 then "0." +:+ zeros (Z.to_nat (- decpt)) +:+ ds
        else if decpt <? nd then
          String.substring 0 (Z.to_nat decpt) ds +:+ "."
          +:+ String.substring (Z.to_nat decpt) (Z.to_nat (nd - decpt)) ds
        else ds +:+ zeros (Z.to_nat (decpt - nd)) +:+ ".0" in
      (if s then "-" else "") +:+ body
  end.

(** The encoder's text for a float *)
Definition floatstr (x : PrimFloat.float) : string :=
  match FloatOps.Prim2SF x with
  | SpecFloat.S754_nan => "NaN"
  | SpecFloat.S754_infinity s => if s then "-Infinity" else "Infinity"
  | _ => float_repr x
  end.

Local Close Scope Z_scope.

(** *** Encoding *)

Definition escape (c : ascii) : string :=
  let n := code c in
  if bool_decide (c = quote) then String backslash (String quote "")
  else if bool_decide (c = backslash)
       then String backslash (String backslash "")
  else if (n =? 10)%Z then String backslash "n"
  else if (n =? 13)%Z then String backslash "r"
  else if (n =? 9)%Z then String backslash "t"
  else if (n =? 8)%Z then String backslash "b"
  else if (n =? 12)%Z then String backslash "f"
  else if ((32 <=? n) && (n <=? 126))%Z then String c ""
  else String backslash
         (String "u" (String "0" (String "0"
            (String (hex_digit (n / 16)) (String (hex_digit (n mod 16)) ""))))).

Fixpoint escape_all (s : string) : string :=
  match s with
  | EmptyString => ""
  | String c rest => escape c +:+ escape_all rest
  end.

Definition encode_str (s : string) : string :=
  String quote (escape_all s +:+ String quote "").

(** What has been written so far, and the exception that ended the
    writing. *)
Definition chunks : Type := string * option exn.

Definition yield (text : string) : chunks := (text, None).

Definition then_ (first second : chunks) : chunks :=
  match first with
  | (text, None) => (text +:+ second.1, second.2)
  | (text, Some e) => (text, Some e)
  end.

Infix ">>>" := then_ (at level 61, left associativity).

Fixpoint spaces (n : nat) : string :=
  match n with
  | O => ""
  | S n' => String " " (spaces n')
  end.

Definition newline_indent (indent level : nat) : string :=
  String "010" (spaces (indent * level)).

Fixpoint iterencode (indent level : nat) (o : pyval) : chunks :=
  let iterencode_list (items : list pyval) : chunks :=
    match items with
    | [] => yield "[]"
    | first :: others =>
        yield ("[" +:+ newline_indent indent (S level))
        >>> iterencode indent (S level) first
        >>> (fix rest (l : list pyval) : chunks :=
               match l with
               | [] => yield ""
               | value :: l' =>
                   yield ("," +:+ newline_indent indent (S level))
                   >>> iterencode indent (S level) value >>> rest l'
               end) others
        >>> yield (newline_indent indent level +:+ "]")
    end in
  match o with
  | PNone => yield "null"
  | PBool true => yield "true"
  | PBool false => yield "false"
  | PInt n => yield (pretty n)
  | PFloat x => yield (floatstr x)
  | PStr s => yield (encode_str s)
  | PList items => iterencode_list items
  | PTuple items => iterencode_list items
  | PDict items =>
      match items with
      | [] => yield "{}"
      | (key, first) :: others =>
          yield ("{" +:+ newline_indent indent (S level))
          >>> yield (encode_str key +:+ ": ")
          >>> iterencode indent (S level) first
          >>> (fix rest (l : list (string * pyval)) : chunks :=
                 match l with
                 | [] => yield ""
                 | (key', value) :: l' =>
                     yield ("," +:+ newline_indent indent (S level))
                     >>> yield (encode_str key' +:+ ": ")
                     >>> iterencode indent (S level) value >>> rest l'
                 end) others
          >>> yield (newline_indent indent level +:+ "}")
      end
  | PBytes _ => ("", Some (TypeError TBytes))
  end.

Definition dump (indent : nat) (obj : pyval) : chunks :=
  iterencode indent 0 obj.

(** *** Decoding *)

Definition is_whitespace (c : ascii) : bool :=
  let n := code c in
  ((n =? 32) || (n =? 9) || (n =? 10) || (n =? 13))%Z.

Fixpoint skip_whitespace (s : string) : string :=
  match s with
  | String c rest => if is_whitespace c then skip_whitespace rest else s
  | EmptyString => s
  end.

Definition digit_value (c : ascii) : option Z :=
  let n := code c in
  if ((48 <=? n) && (n <=? 57))%Z then Some (n - 48)%Z else None.

Local Open Scope Z_scope.

(** The digits at the head of [s]: their value after [acc], how many they
    are, and what follows them. *)
Fixpoint scan_digits (s : string) (acc : Z) (count : Z) : Z * Z * string :=
  match s with
  | String c rest =>
      match digit_value c with
      | Some d => scan_digits rest (10 * acc + d) (count + 1)
      | None => (acc, count, s)
      end
  | EmptyString => (acc, count, s)
  end.

(** [float(text)] for the decimal [digits * 10 ^ k] *)
Definition float_of_decimal (negative : bool) (digits k : Z)
    : PrimFloat.float :=
  if digits =? 0 then (if negative then PrimFloat.neg_zero else PrimFloat.zero)
  else if 400 <? k
       then (if negative then PrimFloat.neg_infinity else PrimFloat.infinity)
  else if k + Z.log2 digits + 1 <? -400
       then (if negative then PrimFloat.neg_zero else PrimFloat.zero)
  else let '(n, d) := decimal_ratio digits k in nearest_double negative n d.

(** A number literal: an optional minus sign; a single zero, or a non-zero
    digit and more digits; then, each optional, a point with digits and an
    exponent.  With neither of the two it is an [int], else a [float]. *)
Definition scan_number (s : string) : option (pyval * string) :=
  let '(negative, body) :=
    match s with
    | String "-" rest => (true, rest)
    | _ => (false, s)
    end in
  match body with
  | String c rest =>
      match digit_value c with
      | Some d =>
          let '(int_part, _, after_int) :=
            if d =? 0 then (0, 1, rest) else scan_digits rest d 1 in
          let '(frac, after_frac) :=
            match after_int with
            | String "." rest' =>
                match scan_digits rest' int_part 0 with
                | (_, 0, _) => (None, after_int)
                | (digits, count, rest'') => (Some (digits, count), rest'')
                end
            | _ => (None, after_int)
            end in
          let '(exponent, after_exp) :=
            let digits_of (minus : bool) (text : string) :=
              match scan_digits text 0 0 with
              | (_, 0, _) => (None, after_frac)
              | (e, _, rest') => (Some (if minus then - e else e), rest')
              end in
            match after_frac with
            | String "e" (String "-" rest') | String "E" (String "-" rest') =>
                digits_of true rest'
            | String "e" (String "+" rest') | String "E" (String "+" rest') =>
                digits_of false rest'
            | String "e" rest' | String "E" rest' => digits_of false rest'
            | _ => (None, after_frac)
            end in
          match frac, exponent with
          | None, None =>
              Some (PInt (if negative then - int_part else int_part), after_exp)
          | _, _ =>
              let '(digits, count) := default (int_part, 0) frac in
              Some (PFloat (float_of_decimal negative digits
                              (default 0 exponent - count)), after_exp)
          end
      | None => None
      end
  | EmptyString => None
  end.

Local Close Scope Z_scope.

(** The text of a string literal after its opening quote. *)
Fixpoint scanstring (s : string) (acc : string) : option (string * string) :=
  match s with
  | EmptyString => None
  | String c rest =>
      if bool_decide (c = quote) then Some (acc, rest)
      else if bool_decide (c = backslash) then
        match rest with
        | String "u" (String a (String b (String c' (String d rest')))) =>
            match hex_value a, hex_value b, hex_value c', hex_value d with
            | Some 0%Z, Some 0%Z, Some h, Some l =>
                scanstring rest'
                  (acc +:+ String (ascii_of_N (Z.to_N (16 * h + l))) "")
            | _, _, _, _ => None
            end
        | String e rest' =>
            let unescaped :=
              if bool_decide (e = quote) then Some quote
              else if bool_decide (e = backslash) then Some backslash
              else match e with
                   | "/" => Some "/"
                   | "b" => Some "008"
                   | "f" => Some "012"
                   | "n" => Some "010"
                   | "r" => Some "013"
                   | "t" => Some "009"
                   | _ => None
                   end%char in
            match unescaped with
            | Some c' => scanstring rest' (acc +:+ String c' "")
            | None => None
            end
        | EmptyString => None
        end
      else if (code c <? 32)%Z then None
      else scanstring rest (acc +:+ String c "")
  end.

Fixpoint scan_once (fuel : nat) (s : string) : option (pyval * string) :=
  match fuel with
  | O => None
  | S fuel' =>
      match s with
      | String "n" (String "u" (String "l" (String "l" rest))) =>
          Some (PNone, rest)
      | String "t" (String "r" (String "u" (String "e" rest))) =>
          Some (PBool true, rest)
      | String "f" (String "a" (String "l" (String "s" (String "e" rest)))) =>
          Some (PBool false, rest)
      | String "[" rest =>
          match skip_whitespace rest with
          | String "]" rest' => Some (PList [], rest')
          | rest' => scan_array fuel' rest' []
          end
      | String "{" rest =>
          match skip_whitespace rest with
          | String "}" rest' => Some (PDict [], rest')
          | rest' => scan_object fuel' rest' []
          end
      | String c rest =>
          if bool_decide (c = quote) then
            match scanstring rest "" with
            | Some (text, rest') => Some (PStr text, rest')
            | None => None
            end
          else
            match scan_number s with
            | Some number => Some number
            | None =>
                match s with
                | String "N" (String "a" (String "N" rest')) =>
                    Some (PFloat PrimFloat.nan, rest')
                | String "I" (String "n" (String "f" (String "i" (String "n"
                    (String "i" (String "t" (String "y" rest'))))))) =>
                    Some (PFloat PrimFloat.infinity, rest')
                | String "-" (String "I" (String "n" (String "f" (String "i"
                    (String "n" (String "i" (String "t" (String "y"
                    rest')))))))) =>
                    Some (PFloat PrimFloat.neg_infinity, rest')
                | _ => None
                end
            end
      | EmptyString => None
      end
  end
with scan_array (fuel : nat) (s : string) (values : list pyval)
    : option (pyval * string) :=
  match fuel with
  | O => None
  | S fuel' =>
      match scan_once fuel' s with
      | Some (value, rest) =>
          match skip_whitespace rest with
          | String "," rest' =>
              scan_array fuel' (skip_whitespace rest') (values ++ [value])
          | String "]" rest' => Some (PList (values ++ [value]), rest')
          | _ => None
          end
      | None => None
      end
  end
with scan_object (fuel : nat) (s : string) (pairs : list (string * pyval))
    : option (pyval * string) :=
  match fuel with
  | O => None
  | S fuel' =>
      match s with
      | String c rest =>
          if bool_decide (c = quote) then
            match scanstring rest "" with
            | Some (key, rest') =>
                match skip_whitespace rest' with
                | String ":" rest'' =>
                    match scan_once fuel' (skip_whitespace rest'') with
                    | Some (value, rest3) =>
                        match skip_whitespace rest3 with
                        | String "," rest4 =>
                            scan_object fuel' (skip_whitespace rest4)
                              (dict_set pairs key value)
                        | String "}" rest4 =>
                            Some (PDict (dict_set pairs key value), rest4)
                        | _ => None
                        end
                    | None => None
                    end
                | _ => None
                end
            | None => None
            end
          else None
      | EmptyString => None
      end
  end.

Definition load (text : string) : option pyval :=
  match scan_once (2 * String.length text + 2) (skip_whitespace text) with
  | Some (obj, rest) =>
      match skip_whitespace rest with
      | EmptyString => Some obj
      | _ => None
      end
  | None => None
  end.

End JsonLib.

(** ** Example documents *)

(** The document [{ a: { b: 1 }, n: 5 }], stored with the indentation the
    module writes. *)
Definition example_document : pyval :=
  PDict [("a", PDict [("b", PInt 1)]); ("n", PInt 5)].

Definition example_text : string :=
  (JsonLib.dump _indentLevel example_document).1.

Definition example_files : filesystem := {[ "data.json" := example_text ]}.

(** An array written by hand on one line. *)
Definition unindented_files : filesystem :=
  {[ "data.json" := "[1,2,  [ ], null]" ]}.

(** A text that is not JSON. *)
Definition malformed_files : filesystem := {[ "data.json" := "[1, 2" ]}.

(** * Properties *)

(** ** Dictionaries *)

Lemma dict_get_is_Some (items : list (string * pyval)) (key : string) :
  is_Some (dict_get items key) <-> key ∈ dict_keys items.
Proof.
  unfold dict_keys. induction items as [|[k v] rest IH]; simpl.
  - split; [intros [? ?]; discriminate | intros H; inversion H].
  - case_bool_decide as Hk.
    + subst k. split; [intros _; apply list_elem_of_here | intros _; eauto].
    + rewrite IH. split; [intros H; by apply list_elem_of_further |].
      intros H. apply elem_of_cons in H as [H|H]; [congruence | done].
Qed.

Lemma dict_get_None (items : list (string * pyval)) (key : string) :
  dict_get items key = None <-> key ∉ dict_keys items.
Proof.
  rewrite <- dict_get_is_Some. rewrite <- eq_None_not_Some. done.
Qed.

Lemma dict_get_set_eq (items : list (string * pyval)) (key : string)
    (value : pyval) :
  dict_get (dict_set items key value) key = Some value.
Proof.
  induction items as [|[k v] rest IH]; simpl.
  - by rewrite bool_decide_eq_true_2.
  - case_bool_decide as Hk; simpl.
    + by rewrite bool_decide_eq_true_2.
    + by rewrite bool_decide_eq_false_2.
Qed.

Lemma dict_get_alter_eq (f : pyval -> pyval) (items : list (string * pyval))
    (key : string) :
  dict_get (dict_alter f items key) key = f <$> dict_get items key.
Proof.
  induction items as [|[k v] rest IH]; simpl; [done|].
  case_bool_decide as Hk; simpl.
  - by rewrite bool_decide_eq_true_2.
  - by rewrite bool_decide_eq_false_2.
Qed.

(** ** The key test *)

Lemma _containsKey_property (node : pyval) (key : string) :
  _isJSONProperty node = true ->
  _containsKey node key = Raise (AttributeError (type_of node) "keys").
Proof. destruct node; intros H; try reflexivity; discriminate H. Qed.

(** ** Path resolution *)

(** One iteration of the loop on a dictionary. *)
Lemma loop_step_dict (rawData : pyval) (keys : list string) (i : nat)
    (key : string) (rest : list string) (items : list (string * pyval)) :
  _getValueOfKeys_loop rawData keys i (key :: rest) (PDict items) =
  match dict_get items key with
  | Some child => _getValueOfKeys_loop rawData keys (S i) rest child
  | None => let? allKeys := keys_of rawData in
            Raise (JSONKeyNotFoundError key allKeys (take i keys))
  end.
Proof.
  simpl. destruct (dict_get items key) as [child|] eqn:Hget.
  - rewrite bool_decide_eq_true_2; [done|].
    apply dict_get_is_Some. by rewrite Hget.
  - rewrite bool_decide_eq_false_2; [done|]. by apply dict_get_None.
Qed.

(** The loop returns exactly when the remaining keys lead somewhere, and
    then neither the index nor the whole path matter. *)
Lemma loop_Ok (rawData : pyval) (keys : list string) (rest : list string) :
  forall (i : nat) (current node : pyval),
  _getValueOfKeys_loop rawData keys i rest current = Ok node <->
  lookup_path current rest = Some node.
Proof.
  induction rest as [|key rest IH]; intros i current node.
  - simpl. split; congruence.
  - destruct current;
      try (simpl; split; intros H; discriminate H).
    rewrite loop_step_dict. simpl.
    destruct (dict_get items key) as [child|]; [apply IH|].
    destruct (keys_of rawData); simpl; split; intros H; discriminate H.
Qed.

Lemma _getValueOfKeys_Ok (rawData : pyval) (keys : list string)
    (node : pyval) :
  _getValueOfKeys rawData keys = Ok node <->
  lookup_path rawData keys = Some node.
Proof. apply loop_Ok. Qed.

(** The loop over a concatenation is the loop over its first part followed
    by the loop over the second. *)
Lemma loop_app (rawData : pyval) (keys : list string)
    (front back : list string) :
  forall (i : nat) (current : pyval),
  _getValueOfKeys_loop rawData keys i (front ++ back) current =
  let? middle := _getValueOfKeys_loop rawData keys i front current in
  _getValueOfKeys_loop rawData keys (i + length front) back middle.
Proof.
  induction front as [|key front IH]; intros i current.
  - simpl. by rewrite Nat.add_0_r.
  - change ((key :: front) ++ back) with (key :: (front ++ back)).
    destruct current; try reflexivity.
    rewrite !loop_step_dict.
    destruct (dict_get items key) as [child|].
    + rewrite IH. simpl. by rewrite Nat.add_succ_r.
    + by destruct (keys_of rawData).
Qed.

(** Resolving [front ++ back] once [front] is known to lead to [middle]. *)
Lemma _getValueOfKeys_app (rawData : pyval) (front back : list string)
    (middle : pyval) :
  _getValueOfKeys rawData front = Ok middle ->
  _getValueOfKeys rawData (front ++ back) =
  _getValueOfKeys_loop rawData (front ++ back) (length front) back middle.
Proof.
  intros Hfront. unfold _getValueOfKeys. rewrite loop_app.
  apply loop_Ok in Hfront.
  apply (loop_Ok rawData (front ++ back) front 0) in Hfront.
  by rewrite Hfront.
Qed.

(** The assignment through a path is seen when the path is followed
    again. *)
Lemma lookup_path_setitem_at (keys : list string) (key : string)
    (value : pyval) :
  forall (rawData : pyval) (items : list (string * pyval)),
  lookup_path rawData keys = Some (PDict items) ->
  lookup_path (setitem_at rawData keys key value) keys =
  Some (PDict (dict_set items key value)).
Proof.
  induction keys as [|k keys IH]; intros rawData items; simpl.
  - intros [= ->]. reflexivity.
  - destruct rawData; try discriminate.
    destruct (dict_get items0 k) as [child|] eqn:Hget; [|discriminate].
    intros Hchild. simpl. rewrite dict_get_alter_eq, Hget. simpl.
    by apply IH.
Qed.

Lemma lookup_path_app (front back : list string) :
  forall (rawData : pyval),
  lookup_path rawData (front ++ back) =
  lookup_path rawData front ≫= fun middle => lookup_path middle back.
Proof.
  induction front as [|k front IH]; intros rawData; simpl; [done|].
  destruct rawData; try done.
  destruct (dict_get items k); [apply IH | done].
Qed.

(** ** Reading and writing *)

Section Properties.

Variable load : string -> option pyval.
Variable dump : nat -> pyval -> string * option exn.

Lemma readJSONFile_ok (fs : filesystem) (filePath text : string)
    (rawData : pyval) :
  fs !! filePath = Some text -> load text = Some rawData ->
  readJSONFile load filePath fs = (Ok rawData, fs).
Proof.
  intros Hfile Hload.
  unfold readJSONFile, bind, exists_, open_read, ret.
  rewrite Hfile, bool_decide_eq_true_2 by eauto. simpl.
  by rewrite Hfile, Hload.
Qed.

Lemma readJSONFile_missing (fs : filesystem) (filePath : string) :
  fs !! filePath = None ->
  readJSONFile load filePath fs = (Raise (FileNotFoundError filePath), fs).
Proof.
  intros Hfile. unfold readJSONFile, bind, exists_, raise.
  rewrite Hfile, bool_decide_eq_false_2; [done|].
  intros [? ?]; discriminate.
Qed.

Lemma readJSONFile_malformed (fs : filesystem) (filePath text : string) :
  fs !! filePath = Some text -> load text = None ->
  readJSONFile load filePath fs = (Raise JSONDecodeError, fs).
Proof.
  intros Hfile Hload.
  unfold readJSONFile, bind, exists_, open_read, raise.
  rewrite Hfile, bool_decide_eq_true_2 by eauto. simpl.
  by rewrite Hfile, Hload.
Qed.

(** Reading leaves every file as it is. *)
Lemma readJSONFile_frame (fs : filesystem) (filePath : string) :
  (readJSONFile load filePath fs).2 = fs.
Proof.
  destruct (fs !! filePath) as [text|] eqn:Hfile.
  - destruct (load text) as [rawData|] eqn:Hload.
    + by erewrite readJSONFile_ok.
    + by erewrite readJSONFile_malformed.
  - by rewrite readJSONFile_missing.
Qed.

Lemma writeJSONFile_existing (fs : filesystem) (filePath old text : string)
    (data : pyval) (failure : option exn) :
  fs !! filePath = Some old -> dump _indentLevel data = (text, failure) ->
  writeJSONFile dump filePath data fs =
  (match failure with None => Ok tt | Some e => Raise e end,
   <[filePath := text]> fs).
Proof.
  intros Hfile Hdump. unfold writeJSONFile, bind, exists_, open_write.
  rewrite Hfile, bool_decide_eq_true_2 by eauto. simpl.
  rewrite Hdump. by destruct failure.
Qed.

(** Running an operation whose file is there and parses. *)
Ltac run_loaded Hfile Hload :=
  unfold bind at 1; rewrite (readJSONFile_ok _ _ _ _ Hfile Hload);
  unfold bind, lift, raise, ret; simpl.

(** ** Resolution through a property *)

Lemma _getValueOfKeys_through_property (rawData : pyval)
    (pre : list string) (key : string) (rest : list string) (node : pyval) :
  _getValueOfKeys rawData pre = Ok node ->
  _isJSONProperty node = true ->
  _getValueOfKeys rawData (pre ++ key :: rest) =
  Raise (AttributeError (type_of node) "keys").
Proof.
  intros Hpre Hnode. rewrite (_getValueOfKeys_app _ _ _ _ Hpre).
  simpl. by rewrite _containsKey_property.
Qed.

Lemma init_keys_app_cons (pre : list string) (key : string)
    (rest : list string) :
  init_keys (pre ++ key :: rest) = pre ++ init_keys (key :: rest).
Proof. unfold init_keys. by rewrite removelast_app. Qed.

Lemma last_key_app_cons (pre : list string) (key : string)
    (rest : list string) :
  last_key (pre ++ key :: rest) = last_key (key :: rest).
Proof. unfold last_key. by rewrite last_app_cons. Qed.

(** What [setProperty] and [setObject] do up to the test of the last key
    when a property is met on the way. *)
Lemma set_prefix_through_property (rawData : pyval) (pre : list string)
    (key : string) (rest : list string) (node : pyval) :
  _getValueOfKeys rawData pre = Ok node ->
  _isJSONProperty node = true ->
  (let? parentObject :=
     _getValueOfKeys rawData (init_keys (pre ++ key :: rest)) in
   let? k := last_key (pre ++ key :: rest) in
   _containsKey parentObject k) =
  Raise (AttributeError (type_of node) "keys").
Proof.
  intros Hpre Hnode. rewrite init_keys_app_cons, last_key_app_cons.
  destruct rest as [|key' rest].
  - unfold init_keys. simpl. rewrite app_nil_r, Hpre. simpl.
    by rewrite _containsKey_property.
  - unfold init_keys.
    change (removelast (key :: key' :: rest))
      with (key :: removelast (key' :: rest)).
    by rewrite (_getValueOfKeys_through_property _ _ _ _ _ Hpre Hnode).
Qed.

(** C1, as the code has it: when resolution meets a property (a scalar or an
    array) before the path is exhausted, every one of the six operations
    that resolve a path ends with the [AttributeError] of the missing
    [keys] attribute, not with [JSONKeyNotFoundError]; no file is
    written. *)
Theorem resolution_through_property_is_AttributeError
    (fs : filesystem) (filePath text : string) (rawData : pyval)
    (pre : list string) (key : string) (rest : list string) (node : pyval) :
  fs !! filePath = Some text -> load text = Some rawData ->
  _getValueOfKeys rawData pre = Ok node ->
  _isJSONProperty node = true ->
  let keys := pre ++ key :: rest in
  let failure := AttributeError (type_of node) "keys" in
  _getValueOfKeys rawData keys = Raise failure /\
  getProperty load filePath keys fs = (Raise failure, fs) /\
  getObject load filePath keys fs = (Raise failure, fs) /\
  (forall value, setProperty load dump filePath keys value fs
                 = (Raise failure, fs)) /\
  (forall object, setObject load dump filePath keys object fs
                  = (Raise failure, fs)) /\
  (forall newKey value, addProperty load dump filePath keys newKey value fs
                        = (Raise failure, fs)) /\
  (forall newKey object, addObject load dump filePath keys newKey object fs
                         = (Raise failure, fs)).
Proof.
  intros Hfile Hload Hpre Hnode keys failure.
  pose proof (_getValueOfKeys_through_property _ _ key rest _ Hpre Hnode)
    as Hkeys.
  pose proof (set_prefix_through_property _ _ key rest _ Hpre Hnode) as Hset.
  fold keys in Hkeys, Hset. fold failure in Hkeys, Hset.
  split; [exact Hkeys|].
  split; [unfold getProperty; run_loaded Hfile Hload; by rewrite Hkeys|].
  split; [unfold getObject; run_loaded Hfile Hload; by rewrite Hkeys|].
  split; [intros value; unfold setProperty; run_loaded Hfile Hload|].
  { destruct (_getValueOfKeys rawData (init_keys keys)) as [parent|e];
      simpl in *; [|congruence].
    destruct (last_key keys) as [k|e]; simpl in *; [|congruence].
    by rewrite Hset. }
  split; [intros object; unfold setObject; run_loaded Hfile Hload|].
  { destruct (_getValueOfKeys rawData (init_keys keys)) as [parent|e];
      simpl in *; [|congruence].
    destruct (last_key keys) as [k|e]; simpl in *; [|congruence].
    by rewrite Hset. }
  split; intros newKey value.
  - unfold addProperty; run_loaded Hfile Hload. by rewrite Hkeys.
  - unfold addObject; run_loaded Hfile Hload. by rewrite Hkeys.
Qed.

(** ** The membership tests *)

(** C2, as the code has it: when an intermediate node is a property, the
    two tests do not answer [False]; the [AttributeError] of the missing
    [keys] attribute is not the class their [except] clause names, and it
    reaches the caller. *)
Theorem contains_through_property_raises
    (fs : filesystem) (filePath text : string) (rawData : pyval)
    (pre : list string) (key : string) (rest : list string) (node : pyval) :
  fs !! filePath = Some text -> load text = Some rawData ->
  _getValueOfKeys rawData pre = Ok node ->
  _isJSONProperty node = true ->
  containsProperty load filePath (pre ++ key :: rest) fs
  = (Raise (AttributeError (type_of node) "keys"), fs) /\
  containsObject load filePath (pre ++ key :: rest) fs
  = (Raise (AttributeError (type_of node) "keys"), fs).
Proof.
  intros Hfile Hload Hpre Hnode.
  pose proof (_getValueOfKeys_through_property _ _ key rest _ Hpre Hnode)
    as Hkeys.
  split.
  - unfold containsProperty; run_loaded Hfile Hload. by rewrite Hkeys.
  - unfold containsObject; run_loaded Hfile Hload. by rewrite Hkeys.
Qed.

(** ** A key that is absent *)

Lemma _getValueOfKeys_absent_key (rootItems : list (string * pyval))
    (pre : list string) (key : string) (rest : list string)
    (items : list (string * pyval)) :
  _getValueOfKeys (PDict rootItems) pre = Ok (PDict items) ->
  key ∉ dict_keys items ->
  _getValueOfKeys (PDict rootItems) (pre ++ key :: rest) =
  Raise (JSONKeyNotFoundError key (dict_keys rootItems) pre).
Proof.
  intros Hpre Habsent. rewrite (_getValueOfKeys_app _ _ _ _ Hpre).
  rewrite loop_step_dict.
  apply dict_get_None in Habsent. rewrite Habsent. simpl.
  by rewrite take_app_length.
Qed.

(** The part of the membership tests that answers: a key absent from the
    dictionary reached, at the root or below it, gives [False]. *)
Lemma contains_absent_key_is_false
    (fs : filesystem) (filePath text : string)
    (rootItems : list (string * pyval)) (pre : list string) (key : string)
    (rest : list string) (items : list (string * pyval)) :
  fs !! filePath = Some text -> load text = Some (PDict rootItems) ->
  _getValueOfKeys (PDict rootItems) pre = Ok (PDict items) ->
  key ∉ dict_keys items ->
  containsProperty load filePath (pre ++ key :: rest) fs = (Ok false, fs) /\
  containsObject load filePath (pre ++ key :: rest) fs = (Ok false, fs).
Proof.
  intros Hfile Hload Hpre Habsent.
  pose proof (_getValueOfKeys_absent_key _ _ _ rest _ Hpre Habsent) as Hkeys.
  split.
  - unfold containsProperty; run_loaded Hfile Hload. by rewrite Hkeys.
  - unfold containsObject; run_loaded Hfile Hload. by rewrite Hkeys.
Qed.

(** C3, as the code has it: when [key] is absent from the dictionary reached
    after [pre], the [JSONKeyNotFoundError] of the resolution is built from
    the offending key, the keys of the root dictionary (whatever the depth
    of the failure), and the prefix [pre]; the operations hand it on. *)
Theorem resolution_failure_reports_root_keys
    (fs : filesystem) (filePath text : string)
    (rootItems : list (string * pyval)) (pre : list string) (key : string)
    (rest : list string) (items : list (string * pyval)) :
  fs !! filePath = Some text -> load text = Some (PDict rootItems) ->
  _getValueOfKeys (PDict rootItems) pre = Ok (PDict items) ->
  key ∉ dict_keys items ->
  let failure := JSONKeyNotFoundError key (dict_keys rootItems) pre in
  _getValueOfKeys (PDict rootItems) (pre ++ key :: rest) = Raise failure /\
  getProperty load filePath (pre ++ key :: rest) fs = (Raise failure, fs) /\
  getObject load filePath (pre ++ key :: rest) fs = (Raise failure, fs).
Proof.
  intros Hfile Hload Hpre Habsent failure.
  pose proof (_getValueOfKeys_absent_key _ _ _ rest _ Hpre Habsent) as Hkeys.
  fold failure in Hkeys.
  split; [exact Hkeys|]. split.
  - unfold getProperty; run_loaded Hfile Hload. by rewrite Hkeys.
  - unfold getObject; run_loaded Hfile Hload. by rewrite Hkeys.
Qed.

(** ** Setting *)

(** C4: when the last key of a non-empty path is present in its parent
    dictionary and holds a dictionary, [setProperty] raises
    [NotAPropertyError] and every file is left as it was. *)
Theorem setProperty_on_object_is_NotAProperty
    (fs : filesystem) (filePath text : string) (rawData : pyval)
    (keys : list string) (key : string) (value : pyval)
    (parentItems : list (string * pyval)) (current : pyval) :
  fs !! filePath = Some text -> load text = Some rawData ->
  last keys = Some key ->
  _getValueOfKeys rawData (init_keys keys) = Ok (PDict parentItems) ->
  dict_get parentItems key = Some current ->
  _isJSONObject current = true ->
  setProperty load dump filePath keys value fs
  = (Raise (NotAPropertyError current), fs).
Proof.
  intros Hfile Hload Hlast Hparent Hget Hobject.
  unfold setProperty; run_loaded Hfile Hload.
  rewrite Hparent. unfold last_key. rewrite Hlast. simpl.
  rewrite bool_decide_eq_true_2
    by (apply dict_get_is_Some; rewrite Hget; eauto).
  simpl. rewrite Hget. simpl. by rewrite Hobject.
Qed.

(** C9: with an empty path, [setProperty] and [setObject] end with the
    [IndexError] of [keys[-1]], which is none of the module's own
    exceptions, and every file is left as it was. *)
Theorem set_with_empty_path_is_IndexError
    (fs : filesystem) (filePath text : string) (rawData : pyval)
    (value : pyval) :
  fs !! filePath = Some text -> load text = Some rawData ->
  setProperty load dump filePath [] value fs = (Raise IndexError, fs) /\
  setObject load dump filePath [] value fs = (Raise IndexError, fs).
Proof.
  intros Hfile Hload. split.
  - unfold setProperty; run_loaded Hfile Hload. reflexivity.
  - unfold setObject; run_loaded Hfile Hload. reflexivity.
Qed.

(** ** The operations that only read *)

(** An operation that reads the file and then touches no file. *)
Lemma read_then_pure_frame {A} (k : pyval -> result A) (filePath : string)
    (fs : filesystem) :
  ((let* rawData := readJSONFile load filePath in lift (k rawData)) fs).2 = fs.
Proof.
  unfold bind. pose proof (readJSONFile_frame fs filePath) as Hread.
  destruct (readJSONFile load filePath fs) as [[rawData|e] fs']; simpl in *;
    by subst.
Qed.

(** C10: [getProperty], [getObject], [containsProperty], [containsObject]
    and [isFormatCorrect] leave every file as it was, whether they return
    or raise. *)
Theorem read_only_operations_write_nothing
    (fs : filesystem) (filePath : string) (keys : list string) :
  (getProperty load filePath keys fs).2 = fs /\
  (getObject load filePath keys fs).2 = fs /\
  (containsProperty load filePath keys fs).2 = fs /\
  (containsObject load filePath keys fs).2 = fs /\
  (isFormatCorrect load filePath fs).2 = fs.
Proof.
  pose proof (readJSONFile_frame fs filePath) as Hread.
  repeat split.
  - unfold getProperty, bind, lift, raise, ret.
    destruct (readJSONFile load filePath fs) as [[rawData|e] fs'];
      simpl in *; [|done].
    destruct (_getValueOfKeys rawData keys) as [node|e]; simpl; [|done].
    by destruct (_isJSONObject node).
  - unfold getObject, bind, lift, raise, ret.
    destruct (readJSONFile load filePath fs) as [[rawData|e] fs'];
      simpl in *; [|done].
    destruct (_getValueOfKeys rawData keys) as [node|e]; simpl; [|done].
    by destruct (_isJSONProperty node).
  - apply read_then_pure_frame.
  - apply read_then_pure_frame.
  - unfold isFormatCorrect, bind, io_try_except, open_read, ret.
    destruct (fs !! filePath) as [text|]; [|done].
    destruct (readJSONFile load filePath fs) as [[rawData|e] fs'];
      simpl in *; [done|].
    by destruct e.
Qed.

(** ** The format test *)

Lemma isFormatCorrect_parsed (fs : filesystem) (filePath text : string)
    (data : pyval) :
  fs !! filePath = Some text -> load text = Some data ->
  isFormatCorrect load filePath fs = (Ok true, fs).
Proof.
  intros Hfile Hload. unfold isFormatCorrect, bind, io_try_except, open_read.
  rewrite Hfile. by rewrite (readJSONFile_ok _ _ _ _ Hfile Hload).
Qed.

Lemma isFormatCorrect_malformed (fs : filesystem) (filePath text : string) :
  fs !! filePath = Some text -> load text = None ->
  isFormatCorrect load filePath fs = (Ok false, fs).
Proof.
  intros Hfile Hload. unfold isFormatCorrect, bind, io_try_except, open_read.
  rewrite Hfile. by rewrite (readJSONFile_malformed _ _ _ Hfile Hload).
Qed.

(** C6: on a file that exists, [isFormatCorrect] answers [False] exactly
    when its text does not parse and [True] exactly when it does; on a
    missing file the [FileNotFoundError] reaches the caller. *)
Theorem isFormatCorrect_decides_parsing (fs : filesystem) (filePath : string) :
  (forall text, fs !! filePath = Some text ->
     (isFormatCorrect load filePath fs = (Ok false, fs) <-> load text = None) /\
     (isFormatCorrect load filePath fs = (Ok true, fs)
      <-> exists data, load text = Some data)) /\
  (fs !! filePath = None ->
     isFormatCorrect load filePath fs
     = (Raise (FileNotFoundError filePath), fs)).
Proof.
  split.
  - intros text Hfile. destruct (load text) as [data|] eqn:Hload.
    + rewrite (isFormatCorrect_parsed _ _ _ _ Hfile Hload).
      split; split; intros H; try discriminate; eauto.
    + rewrite (isFormatCorrect_malformed _ _ _ Hfile Hload).
      split; split; intros H; try discriminate; try done.
      by destruct H.
  - intros Hfile. unfold isFormatCorrect, bind at 1, open_read.
    by rewrite Hfile.
Qed.

(** ** Adding *)

Lemma dict_keys_set_fresh (items : list (string * pyval)) (key : string)
    (value : pyval) :
  key ∉ dict_keys items ->
  dict_keys (dict_set items key value) = dict_keys items ++ [key].
Proof.
  induction items as [|[k v] rest IH]; [done|].
  change (dict_keys ((k, v) :: rest)) with (k :: dict_keys rest).
  intros Hfresh. apply not_elem_of_cons in Hfresh as [Hne Hrest].
  cbn [dict_set]. rewrite bool_decide_eq_false_2 by congruence.
  change (dict_keys ((k, v) :: dict_set rest key value))
    with (k :: dict_keys (dict_set rest key value)).
  by rewrite IH.
Qed.

Lemma property_is_not_object (value : pyval) :
  _isJSONProperty value = true -> _isJSONObject value = false.
Proof. destruct value; intros H; try reflexivity; discriminate H. Qed.


(** The defensive error for a value of an unrecognised shape is raised by
    [addProperty], before anything is written. *)
Lemma addProperty_rejects_non_property
    (fs : filesystem) (filePath text : string) (rawData : pyval)
    (keys : list string) (newKey : string) (value : pyval)
    (parentItems : list (string * pyval)) :
  fs !! filePath = Some text -> load text = Some rawData ->
  _getValueOfKeys rawData keys = Ok (PDict parentItems) ->
  newKey ∉ dict_keys parentItems ->
  _isJSONProperty value = false ->
  addProperty load dump filePath keys newKey value fs
  = (Raise (TypeError (type_of value)), fs).
Proof.
  intros Hfile Hload Hparent Hfresh Hvalue.
  unfold addProperty; run_loaded Hfile Hload. rewrite Hparent. simpl.
  rewrite bool_decide_eq_false_2 by done. simpl. by rewrite Hvalue.
Qed.

(** ** Re-indenting *)

(** C7: on a file whose text parses, [indentJSONFile] writes the dump of the
    parsed document, and applied to the result it writes the same text
    again.  The [json] library is asked to read back the document it has
    written. *)
Theorem indentJSONFile_twice
    (fs : filesystem) (filePath text : string) (data : pyval)
    (text' : string) :
  fs !! filePath = Some text -> load text = Some data ->
  dump _indentLevel data = (text', None) -> load text' = Some data ->
  let once := (indentJSONFile load dump filePath fs).2 in
  once !! filePath = Some text' /\
  indentJSONFile load dump filePath once = (Ok tt, once).
Proof.
  intros Hfile Hload Hdump Hback.
  assert (Honce : indentJSONFile load dump filePath fs
                  = (Ok tt, <[filePath := text']> fs)).
  { unfold indentJSONFile; unfold bind at 1.
    rewrite (readJSONFile_ok _ _ _ _ Hfile Hload).
    apply (writeJSONFile_existing _ _ _ _ _ _ Hfile Hdump). }
  rewrite Honce. simpl.
  assert (Hfile' : <[filePath := text']> fs !! filePath = Some text')
    by apply lookup_insert_eq.
  split; [exact Hfile'|].
  unfold indentJSONFile; unfold bind at 1.
  rewrite (readJSONFile_ok _ _ _ _ Hfile' Hback).
  rewrite (writeJSONFile_existing _ _ _ _ _ _ Hfile' Hdump).
  by rewrite insert_insert_eq.
Qed.

End Properties.

(** ** The classifiers *)

(** C8, amended: [_isJSONObject] answers [True] exactly on a dictionary and
    [_isJSONProperty] exactly on a value that is neither a dictionary nor
    of a type outside the JSON ones; so a value that [json.load] can
    produce is exactly one of object and property, while a [bytes] object
    is neither, and neither classifier raises on it.  Tuples are left
    aside. *)
Theorem classification_of_values (v : pyval) :
  type_of v <> TTuple ->
  (_isJSONObject v = true <-> exists items, v = PDict items) /\
  (_isJSONProperty v = true <->
   (forall items, v <> PDict items) /\ type_of v <> TBytes) /\
  (type_of v <> TBytes -> _isJSONProperty v = negb (_isJSONObject v)) /\
  (type_of v = TBytes -> _isJSONProperty v = false /\ _isJSONObject v = false).
Proof.
  intros Htuple. split; [|split; [|split]].
  - split.
    + destruct v; intros H; try discriminate H. eauto.
    + intros [items ->]. reflexivity.
  - split.
    + intros H. split.
      * intros items ->. discriminate H.
      * intros Hbytes. destruct v; try discriminate Hbytes. discriminate H.
    + intros [Hdict Hbytes]. destruct v; try reflexivity.
      * exfalso. by eapply Hdict.
      * exfalso. by apply Htuple.
      * exfalso. by apply Hbytes.
  - intros Hbytes. destruct v; try reflexivity.
    + exfalso. by apply Htuple.
    + exfalso. by apply Hbytes.
  - intros H. destruct v; try discriminate H. split; reflexivity.
Qed.

(** The claim of C8 fails on a [bytes] object: it is no dictionary, and yet
    [_isJSONProperty] answers [False]; it is not classified as exactly one
    of object and property, but as neither. *)
Lemma bytes_is_neither_property_nor_object :
  ~ (_isJSONProperty (PBytes "x") = true
     <-> forall items, PBytes "x" <> PDict items) /\
  ~ (xorb (_isJSONProperty (PBytes "x")) (_isJSONObject (PBytes "x")) = true).
Proof.
  split.
  - intros [_ H]. discriminate H. intros items. discriminate.
  - discriminate.
Qed.

(** ** The properties on the example documents *)

Lemma resolution_through_property_example :
  let failure := AttributeError TInt "keys" in
  _getValueOfKeys example_document ["n"; "x"] = Raise failure /\
  getProperty JsonLib.load "data.json" ["n"; "x"] example_files
  = (Raise failure, example_files) /\
  getObject JsonLib.load "data.json" ["n"; "x"] example_files
  = (Raise failure, example_files) /\
  (forall value,
     setProperty JsonLib.load JsonLib.dump "data.json" ["n"; "x"] value
       example_files = (Raise failure, example_files)) /\
  (forall object,
     setObject JsonLib.load JsonLib.dump "data.json" ["n"; "x"] object
       example_files = (Raise failure, example_files)) /\
  (forall newKey value,
     addProperty JsonLib.load JsonLib.dump "data.json" ["n"; "x"] newKey value
       example_files = (Raise failure, example_files)) /\
  (forall newKey object,
     addObject JsonLib.load JsonLib.dump "data.json" ["n"; "x"] newKey object
       example_files = (Raise failure, example_files)).
Proof.
  apply (resolution_through_property_is_AttributeError
           JsonLib.load JsonLib.dump example_files "data.json" example_text
           example_document ["n"] "x" [] (PInt 5));
    vm_compute; reflexivity.
Defined.

Lemma contains_through_property_example :
  containsProperty JsonLib.load "data.json" ["n"; "x"] example_files
  = (Raise (AttributeError TInt "keys"), example_files) /\
  containsObject JsonLib.load "data.json" ["n"; "x"] example_files
  = (Raise (AttributeError TInt "keys"), example_files).
Proof.
  apply (contains_through_property_raises
           JsonLib.load example_files "data.json" example_text
           example_document ["n"] "x" [] (PInt 5));
    vm_compute; reflexivity.
Defined.

(** The keys at the level of the failure are [b] alone; the exception
    carries those of the root. *)
Lemma resolution_failure_example :
  lookup_path example_document ["a"] = Some (PDict [("b", PInt 1)]) /\
  let failure := JSONKeyNotFoundError "c" ["a"; "n"] ["a"] in
  _getValueOfKeys example_document ["a"; "c"] = Raise failure /\
  getProperty JsonLib.load "data.json" ["a"; "c"] example_files
  = (Raise failure, example_files) /\
  getObject JsonLib.load "data.json" ["a"; "c"] example_files
  = (Raise failure, example_files).
Proof.
  split; [reflexivity|].
  apply (resolution_failure_reports_root_keys
           JsonLib.load example_files "data.json" example_text
           [("a", PDict [("b", PInt 1)]); ("n", PInt 5)] ["a"] "c" []
           [("b", PInt 1)]);
    try (vm_compute; reflexivity).
  apply not_elem_of_cons. split; [discriminate | apply not_elem_of_nil].
Defined.

Lemma setProperty_on_object_example :
  setProperty JsonLib.load JsonLib.dump "data.json" ["a"] (PInt 7)
    example_files
  = (Raise (NotAPropertyError (PDict [("b", PInt 1)])), example_files).
Proof.
  apply (setProperty_on_object_is_NotAProperty
           JsonLib.load JsonLib.dump example_files "data.json" example_text
           example_document ["a"] "a" (PInt 7)
           [("a", PDict [("b", PInt 1)]); ("n", PInt 5)]
           (PDict [("b", PInt 1)]));
    vm_compute; reflexivity.
Defined.



Lemma isFormatCorrect_example :
  isFormatCorrect JsonLib.load "data.json" example_files
  = (Ok true, example_files) /\
  isFormatCorrect JsonLib.load "data.json" malformed_files
  = (Ok false, malformed_files) /\
  isFormatCorrect JsonLib.load "data.json" ∅
  = (Raise (FileNotFoundError "data.json"), ∅).
Proof.
  split; [|split].
  - apply (proj1 (isFormatCorrect_decides_parsing JsonLib.load example_files
                    "data.json") example_text); [reflexivity|].
    eexists. vm_compute. reflexivity.
  - apply (proj1 (isFormatCorrect_decides_parsing JsonLib.load malformed_files
                    "data.json") "[1, 2"); reflexivity.
  - apply (proj2 (isFormatCorrect_decides_parsing JsonLib.load ∅ "data.json")).
    reflexivity.
Defined.

Lemma indentJSONFile_twice_example :
  let once :=
    (indentJSONFile JsonLib.load JsonLib.dump "data.json" unindented_files).2 in
  once !! "data.json"
  = Some (JsonLib.dump _indentLevel
            (PList [PInt 1; PInt 2; PList []; PNone])).1 /\
  indentJSONFile JsonLib.load JsonLib.dump "data.json" once = (Ok tt, once).
Proof.
  apply (indentJSONFile_twice JsonLib.load JsonLib.dump unindented_files
           "data.json" "[1,2,  [ ], null]"
           (PList [PInt 1; PInt 2; PList []; PNone]));
    vm_compute; reflexivity.
Defined.

Lemma set_with_empty_path_example :
  setProperty JsonLib.load JsonLib.dump "data.json" [] (PInt 7) example_files
  = (Raise IndexError, example_files) /\
  setObject JsonLib.load JsonLib.dump "data.json" [] (PInt 7) example_files
  = (Raise IndexError, example_files).
Proof.
  apply (set_with_empty_path_is_IndexError JsonLib.load JsonLib.dump
           example_files "data.json" example_text example_document);
    vm_compute; reflexivity.
Defined.

Lemma classification_example :
  (_isJSONObject (PList [PInt 1]) = true
   <-> exists items, PList [PInt 1] = PDict items) /\
  (_isJSONProperty (PList [PInt 1]) = true <->
   (forall items, PList [PInt 1] <> PDict items)
   /\ type_of (PList [PInt 1]) <> TBytes) /\
  (type_of (PList [PInt 1]) <> TBytes ->
   _isJSONProperty (PList [PInt 1]) = negb (_isJSONObject (PList [PInt 1]))) /\
  (type_of (PList [PInt 1]) = TBytes ->
   _isJSONProperty (PList [PInt 1]) = false
   /\ _isJSONObject (PList [PInt 1]) = false).
Proof. apply (classification_of_values (PList [PInt 1])). discriminate. Defined.

(** * Further properties of the module *)

(** ** Every outcome of the resolution *)

Lemma _containsKey_not_dict (node : pyval) (key : string) :
  (forall items, node <> PDict items) ->
  _containsKey node key = Raise (AttributeError (type_of node) "keys").
Proof.
  intros Hnode. destruct node; try reflexivity. exfalso. by eapply Hnode.
Qed.

(** A path that leads to a dictionary starts in a dictionary. *)
Lemma lookup_path_starts_in_dict (rawData : pyval) (keys : list string)
    (items : list (string * pyval)) :
  lookup_path rawData keys = Some (PDict items) ->
  exists rootItems, rawData = PDict rootItems.
Proof.
  destruct keys as [|k keys]; simpl.
  - intros [= ->]. eauto.
  - destruct rawData; try discriminate. eauto.
Qed.

(** A path either leads somewhere, or has a longest part that does, ending
    in a node where the next key cannot be followed. *)
Lemma lookup_path_cases (keys : list string) :
  forall rawData : pyval,
  (exists node, lookup_path rawData keys = Some node) \/
  (exists pre key rest node,
     keys = pre ++ key :: rest /\ lookup_path rawData pre = Some node /\
     lookup_path node [key] = None).
Proof.
  induction keys as [|k keys IH]; intros rawData; [left; by eexists|].
  destruct (lookup_path rawData [k]) as [child|] eqn:Hstep.
  - simpl in Hstep. destruct rawData; try discriminate.
    destruct (dict_get items k) as [c|] eqn:Hget; [|discriminate].
    injection Hstep as ->.
    destruct (IH child) as [[node Hnode]|(pre & key & rest & node & -> & Hpre & Hkey)].
    + left. exists node. simpl. by rewrite Hget.
    + right. exists (k :: pre), key, rest, node. simpl. by rewrite Hget.
  - right. exists [], k, keys, rawData. by simpl.
Qed.

(** [_getValueOfKeys] has three outcomes and no other: the node the path
    leads to; the [JSONKeyNotFoundError] of the first key that is absent
    from the dictionary reached; the [AttributeError] of the first node on
    the way that is no dictionary.  It never ends with the [KeyError] or
    the [TypeError] of the subscript [currentObject[keys[i]]]. *)
Theorem _getValueOfKeys_outcomes (rawData : pyval) (keys : list string) :
  (exists node,
     lookup_path rawData keys = Some node /\
     _getValueOfKeys rawData keys = Ok node) \/
  (exists pre key rest items rootItems,
     keys = pre ++ key :: rest /\
     lookup_path rawData pre = Some (PDict items) /\
     (key ∉ dict_keys items) /\ rawData = PDict rootItems /\
     _getValueOfKeys rawData keys
     = Raise (JSONKeyNotFoundError key (dict_keys rootItems) pre)) \/
  (exists pre key rest node,
     keys = pre ++ key :: rest /\
     lookup_path rawData pre = Some node /\
     (forall items, node <> PDict items) /\
     _getValueOfKeys rawData keys
     = Raise (AttributeError (type_of node) "keys")).
Proof.
  destruct (lookup_path_cases keys rawData)
    as [[node Hnode]|(pre & key & rest & node & -> & Hpre & Hkey)].
  - left. exists node. split; [done|]. by apply _getValueOfKeys_Ok.
  - right. pose proof Hpre as Hres. apply _getValueOfKeys_Ok in Hres.
    destruct node; try
      (right; eexists pre, key, rest, _; split; [done|]; split; [done|];
       split; [discriminate|];
       rewrite (_getValueOfKeys_app _ _ _ _ Hres); reflexivity).
    left. simpl in Hkey.
    destruct (dict_get items key) eqn:Hget; [discriminate|].
    apply dict_get_None in Hget.
    destruct (lookup_path_starts_in_dict _ _ _ Hpre) as [rootItems ->].
    exists pre, key, rest, items, rootItems. repeat (split; [done|]).
    by apply (_getValueOfKeys_absent_key _ _ _ _ items).
Qed.

Section FurtherProperties.

Variable load : string -> option pyval.
Variable dump : nat -> pyval -> string * option exn.

(** Running an operation whose file is there and parses. *)
Ltac run_file Hfile Hload :=
  unfold bind at 1; rewrite (readJSONFile_ok load _ _ _ _ Hfile Hload);
  unfold bind, lift, raise, ret; simpl.

(** ** Reading along a path that resolves *)

Lemma getProperty_resolved
    (fs : filesystem) (filePath text : string) (rawData : pyval)
    (keys : list string) (node : pyval) :
  fs !! filePath = Some text -> load text = Some rawData ->
  lookup_path rawData keys = Some node ->
  getProperty load filePath keys fs
  = (if _isJSONObject node then Raise (NotAPropertyError node) else Ok node,
     fs).
Proof.
  intros Hfile Hload Hnode. apply _getValueOfKeys_Ok in Hnode.
  unfold getProperty; run_file Hfile Hload. rewrite Hnode. simpl.
  by destruct (_isJSONObject node).
Qed.

Lemma getObject_resolved
    (fs : filesystem) (filePath text : string) (rawData : pyval)
    (keys : list string) (node : pyval) :
  fs !! filePath = Some text -> load text = Some rawData ->
  lookup_path rawData keys = Some node ->
  getObject load filePath keys fs
  = (if _isJSONProperty node then Raise (NotAObjectError node) else Ok node,
     fs).
Proof.
  intros Hfile Hload Hnode. apply _getValueOfKeys_Ok in Hnode.
  unfold getObject; run_file Hfile Hload. rewrite Hnode. simpl.
  by destruct (_isJSONProperty node).
Qed.

(** On a path that leads to a node, [getProperty] returns the node unless
    it is a dictionary, and [getObject] returns it unless its type is one
    of the property types; the refusals are [NotAPropertyError] and
    [NotAObjectError], carrying the node. *)
Theorem get_on_resolved_path
    (fs : filesystem) (filePath text : string) (rawData : pyval)
    (keys : list string) (node : pyval) :
  fs !! filePath = Some text -> load text = Some rawData ->
  lookup_path rawData keys = Some node ->
  getProperty load filePath keys fs
  = (if _isJSONObject node then Raise (NotAPropertyError node) else Ok node,
     fs) /\
  getObject load filePath keys fs
  = (if _isJSONProperty node then Raise (NotAObjectError node) else Ok node,
     fs).
Proof.
  intros Hfile Hload Hnode. split.
  - by eapply getProperty_resolved.
  - by eapply getObject_resolved.
Qed.

(** On a path that leads to a node, the two membership tests answer with
    the classification of the node. *)
Theorem contains_on_resolved_path
    (fs : filesystem) (filePath text : string) (rawData : pyval)
    (keys : list string) (node : pyval) :
  fs !! filePath = Some text -> load text = Some rawData ->
  lookup_path rawData keys = Some node ->
  containsProperty load filePath keys fs = (Ok (_isJSONProperty node), fs) /\
  containsObject load filePath keys fs = (Ok (_isJSONObject node), fs).
Proof.
  intros Hfile Hload Hnode. apply _getValueOfKeys_Ok in Hnode. split.
  - unfold containsProperty; run_file Hfile Hload. by rewrite Hnode.
  - unfold containsObject; run_file Hfile Hload. by rewrite Hnode.
Qed.

(** What a membership test announces can be fetched: when
    [containsProperty] answers [True], [getProperty] on the same path
    returns a value of a property type, and when [containsObject] answers
    [True], [getObject] returns a dictionary. *)
Theorem contains_true_then_get_returns
    (fs : filesystem) (filePath : string) (keys : list string) :
  ((containsProperty load filePath keys fs).1 = Ok true ->
   exists value, getProperty load filePath keys fs = (Ok value, fs) /\
                 _isJSONProperty value = true) /\
  ((containsObject load filePath keys fs).1 = Ok true ->
   exists items, getObject load filePath keys fs = (Ok (PDict items), fs)).
Proof.
  pose proof (readJSONFile_frame load fs filePath) as Hread.
  unfold containsProperty, containsObject, getProperty, getObject, bind, lift,
    raise, ret.
  destruct (readJSONFile load filePath fs) as [[rawData|e] fs'];
    simpl in *; subst fs'; [|split; intros H; discriminate H].
  destruct (_getValueOfKeys rawData keys) as [node|e]; simpl;
    [|split; intros H; destruct e; discriminate H].
  split; intros [= H].
  - exists node. by rewrite (property_is_not_object _ H).
  - destruct node; try discriminate H. eexists. reflexivity.
Qed.

(** The two membership tests never both answer [True] on the same path of
    the same file. *)
Theorem contains_never_both
    (fs : filesystem) (filePath : string) (keys : list string) :
  (containsProperty load filePath keys fs).1 = Ok true ->
  (containsObject load filePath keys fs).1 <> Ok true.
Proof.
  unfold containsProperty, containsObject, bind, lift.
  destruct (readJSONFile load filePath fs) as [[rawData|e] fs'];
    simpl; [|intros H; discriminate H].
  destruct (_getValueOfKeys rawData keys) as [node|e]; simpl;
    [|intros H; destruct e; discriminate H].
  intros [= Hprop] [= Hobj].
  rewrite (property_is_not_object _ Hprop) in Hobj. discriminate.
Qed.

(** ** A file that is missing or is not JSON *)

(** On a missing file every function of the module raises
    [FileNotFoundError], and no file is created. *)
Theorem missing_file_raises_everywhere
    (fs : filesystem) (filePath : string) (keys : list string)
    (newKey : string) (value : pyval) :
  fs !! filePath = None ->
  let failure := FileNotFoundError filePath in
  readJSONFile load filePath fs = (Raise failure, fs) /\
  writeJSONFile dump filePath value fs = (Raise failure, fs) /\
  getProperty load filePath keys fs = (Raise failure, fs) /\
  setProperty load dump filePath keys value fs = (Raise failure, fs) /\
  addProperty load dump filePath keys newKey value fs = (Raise failure, fs) /\
  containsProperty load filePath keys fs = (Raise failure, fs) /\
  getObject load filePath keys fs = (Raise failure, fs) /\
  setObject load dump filePath keys value fs = (Raise failure, fs) /\
  addObject load dump filePath keys newKey value fs = (Raise failure, fs) /\
  containsObject load filePath keys fs = (Raise failure, fs) /\
  isFormatCorrect load filePath fs = (Raise failure, fs) /\
  indentJSONFile load dump filePath fs = (Raise failure, fs).
Proof.
  intros Hfile failure.
  pose proof (readJSONFile_missing load _ _ Hfile) as Hread.
  repeat split;
    try (unfold getProperty, setProperty, addProperty, containsProperty,
           getObject, setObject, addObject, containsObject, indentJSONFile;
         unfold bind at 1; by rewrite Hread).
  - exact Hread.
  - unfold writeJSONFile, bind, exists_, raise.
    rewrite Hfile, bool_decide_eq_false_2; [done|].
    intros [? ?]; discriminate.
  - unfold isFormatCorrect, bind at 1, open_read. by rewrite Hfile.
Qed.

(** On a file whose text does not parse, every function that reads the
    document raises [JSONDecodeError], and the text stays as it is. *)
Theorem malformed_file_raises_everywhere
    (fs : filesystem) (filePath text : string) (keys : list string)
    (newKey : string) (value : pyval) :
  fs !! filePath = Some text -> load text = None ->
  readJSONFile load filePath fs = (Raise JSONDecodeError, fs) /\
  getProperty load filePath keys fs = (Raise JSONDecodeError, fs) /\
  setProperty load dump filePath keys value fs = (Raise JSONDecodeError, fs) /\
  addProperty load dump filePath keys newKey value fs
  = (Raise JSONDecodeError, fs) /\
  containsProperty load filePath keys fs = (Raise JSONDecodeError, fs) /\
  getObject load filePath keys fs = (Raise JSONDecodeError, fs) /\
  setObject load dump filePath keys value fs = (Raise JSONDecodeError, fs) /\
  addObject load dump filePath keys newKey value fs
  = (Raise JSONDecodeError, fs) /\
  containsObject load filePath keys fs = (Raise JSONDecodeError, fs) /\
  indentJSONFile load dump filePath fs = (Raise JSONDecodeError, fs).
Proof.
  intros Hfile Hload.
  pose proof (readJSONFile_malformed load _ _ _ Hfile Hload) as Hread.
  repeat split;
    try (unfold getProperty, setProperty, addProperty, containsProperty,
           getObject, setObject, addObject, containsObject, indentJSONFile;
         unfold bind at 1; by rewrite Hread).
  exact Hread.
Qed.

(** ** What the writing operations leave alone *)

Lemma keeps_other_files_refl (filePath : string) (fs : filesystem) :
  keeps_other_files filePath fs fs.
Proof. by split. Qed.

Lemma keeps_other_files_trans (filePath : string) (fs1 fs2 fs3 : filesystem) :
  keeps_other_files filePath fs1 fs2 -> keeps_other_files filePath fs2 fs3 ->
  keeps_other_files filePath fs1 fs3.
Proof.
  intros [Hdom12 H12] [Hdom23 H23]. split; [congruence|].
  intros other Hother. rewrite H23, H12; done.
Qed.

Lemma bind_keeps_other_files {A B} (filePath : string) (m : IO A)
    (k : A -> IO B) :
  (forall fs, keeps_other_files filePath fs (m fs).2) ->
  (forall a fs, keeps_other_files filePath fs (k a fs).2) ->
  forall fs, keeps_other_files filePath fs (bind m k fs).2.
Proof.
  intros Hm Hk fs. unfold bind. specialize (Hm fs).
  destruct (m fs) as [[a|e] fs']; simpl in *; [|done].
  eapply keeps_other_files_trans; [exact Hm | apply Hk].
Qed.

Lemma readJSONFile_keeps_other_files (filePath : string) (fs : filesystem) :
  keeps_other_files filePath fs (readJSONFile load filePath fs).2.
Proof. rewrite readJSONFile_frame. apply keeps_other_files_refl. Qed.

Lemma writeJSONFile_keeps_other_files (filePath : string) (data : pyval)
    (fs : filesystem) :
  keeps_other_files filePath fs (writeJSONFile dump filePath data fs).2.
Proof.
  destruct (fs !! filePath) as [old|] eqn:Hfile.
  - destruct (dump _indentLevel data) as [text failure] eqn:Hdump.
    rewrite (writeJSONFile_existing dump _ _ _ _ _ _ Hfile Hdump). simpl.
    split.
    + rewrite dom_insert_L. pose proof (elem_of_dom_2 _ _ _ Hfile) as Hin.
      apply subseteq_union_1_L. by apply singleton_subseteq_l.
    + intros other Hother. by rewrite lookup_insert_ne.
  - unfold writeJSONFile, bind, exists_, raise.
    rewrite Hfile, bool_decide_eq_false_2; [apply keeps_other_files_refl|].
    intros [? ?]; discriminate.
Qed.

(** Proving [keeps_other_files] along the structure of an operation. *)
Ltac keeps_other_files :=
  repeat first
    [ apply readJSONFile_keeps_other_files
    | apply writeJSONFile_keeps_other_files
    | apply keeps_other_files_refl
    | apply bind_keeps_other_files; intros
    | progress (unfold lift, raise, ret; simpl)
    | match goal with
      | |- context [if ?b then _ else _] => destruct b
      end ].

(** The four writing operations and [indentJSONFile] never create or remove
    a file, and the text of every file other than [filePath] is what it
    was, whatever they return or raise. *)
Theorem writes_keep_other_files
    (fs : filesystem) (filePath : string) (keys : list string)
    (newKey : string) (value : pyval) :
  Forall (keeps_other_files filePath fs)
    [ (setProperty load dump filePath keys value fs).2;
      (addProperty load dump filePath keys newKey value fs).2;
      (setObject load dump filePath keys value fs).2;
      (addObject load dump filePath keys newKey value fs).2;
      (indentJSONFile load dump filePath fs).2 ].
Proof.
  repeat apply Forall_cons_2; [..|apply Forall_nil_2].
  - unfold setProperty. keeps_other_files.
  - unfold addProperty. keeps_other_files.
  - unfold setObject. keeps_other_files.
  - unfold addObject. keeps_other_files.
  - unfold indentJSONFile. keeps_other_files.
Qed.

(** ** Setting *)

Lemma keys_init_last (keys : list string) (key : string) :
  last keys = Some key -> keys = init_keys keys ++ [key].
Proof.
  intros Hlast. apply last_Some in Hlast as [front ->].
  unfold init_keys. by rewrite removelast_last.
Qed.

(** The node a non-empty path leads to sits under its last key in the
    dictionary the rest of the path leads to. *)
Lemma lookup_path_parent (rawData : pyval) (keys : list string)
    (key : string) (current : pyval) :
  last keys = Some key -> lookup_path rawData keys = Some current ->
  exists parentItems,
    lookup_path rawData (init_keys keys) = Some (PDict parentItems) /\
    dict_get parentItems key = Some current.
Proof.
  intros Hlast Hcurrent. rewrite (keys_init_last _ _ Hlast) in Hcurrent.
  rewrite lookup_path_app in Hcurrent.
  destruct (lookup_path rawData (init_keys keys)) as [parent|];
    [|discriminate].
  simpl in Hcurrent. destruct parent; try discriminate.
  destruct (dict_get items key) as [child|] eqn:Hget; [|discriminate].
  injection Hcurrent as ->. eauto.
Qed.

Lemma dict_keys_set_present (items : list (string * pyval)) (key : string)
    (value : pyval) :
  key ∈ dict_keys items -> dict_keys (dict_set items key value) = dict_keys items.
Proof.
  induction items as [|[k v] rest IH]; [intros H; inversion H|].
  change (dict_keys ((k, v) :: rest)) with (k :: dict_keys rest).
  intros Hin. cbn [dict_set]. case_bool_decide as Hk; [done|].
  change (dict_keys ((k, v) :: dict_set rest key value))
    with (k :: dict_keys (dict_set rest key value)).
  apply elem_of_cons in Hin as [->|Hin]; [done|]. by rewrite IH.
Qed.

(** When the last key of the path is absent from the dictionary the rest of
    the path leads to, [setProperty] and [setObject] raise
    [JSONKeyNotFoundError] with that key, the keys of that very dictionary
    and the rest of the path; nothing is written.  They never add a key. *)
Theorem set_missing_last_key
    (fs : filesystem) (filePath text : string) (rawData : pyval)
    (keys : list string) (key : string) (value : pyval)
    (parentItems : list (string * pyval)) :
  fs !! filePath = Some text -> load text = Some rawData ->
  last keys = Some key ->
  lookup_path rawData (init_keys keys) = Some (PDict parentItems) ->
  key ∉ dict_keys parentItems ->
  let failure :=
    JSONKeyNotFoundError key (dict_keys parentItems) (init_keys keys) in
  setProperty load dump filePath keys value fs = (Raise failure, fs) /\
  setObject load dump filePath keys value fs = (Raise failure, fs).
Proof.
  intros Hfile Hload Hlast Hparent Habsent failure.
  apply _getValueOfKeys_Ok in Hparent. split.
  - unfold setProperty; run_file Hfile Hload. rewrite Hparent.
    unfold last_key. rewrite Hlast. simpl.
    by rewrite bool_decide_eq_false_2.
  - unfold setObject; run_file Hfile Hload. rewrite Hparent.
    unfold last_key. rewrite Hlast. simpl.
    by rewrite bool_decide_eq_false_2.
Qed.

(** What is read after a write through [init ++ [key]]. *)
Lemma lookup_path_after_setitem (rawData : pyval) (init : list string)
    (key : string) (value : pyval) (parentItems : list (string * pyval)) :
  lookup_path rawData init = Some (PDict parentItems) ->
  lookup_path (setitem_at rawData init key value) (init ++ [key])
  = Some value.
Proof.
  intros Hparent. rewrite lookup_path_app.
  rewrite (lookup_path_setitem_at _ _ _ _ _ Hparent). simpl.
  by rewrite dict_get_set_eq.
Qed.

Lemma setProperty_writes
    (fs : filesystem) (filePath text : string) (rawData : pyval)
    (keys : list string) (key : string) (value current : pyval)
    (text' : string) :
  fs !! filePath = Some text -> load text = Some rawData ->
  last keys = Some key ->
  lookup_path rawData keys = Some current ->
  _isJSONObject current = false ->
  dump _indentLevel (setitem_at rawData (init_keys keys) key value)
  = (text', None) ->
  setProperty load dump filePath keys value fs
  = (Ok tt, <[filePath := text']> fs).
Proof.
  intros Hfile Hload Hlast Hcurrent Hkind Hdump.
  destruct (lookup_path_parent _ _ _ _ Hlast Hcurrent)
    as (parentItems & Hparent & Hget).
  apply _getValueOfKeys_Ok in Hparent.
  unfold setProperty; run_file Hfile Hload. rewrite Hparent.
  unfold last_key. rewrite Hlast. simpl.
  rewrite bool_decide_eq_true_2
    by (apply dict_get_is_Some; rewrite Hget; eauto).
  simpl. rewrite Hget. simpl.
  rewrite Hkind. apply (writeJSONFile_existing dump _ _ _ _ _ _ Hfile Hdump).
Qed.

(** [setProperty] on a path that leads to a value that is no dictionary
    replaces that value, whatever the new value is (its type is not
    tested): afterwards [getProperty] on the path returns the new value,
    or refuses it if it is a dictionary, and the dictionary holding the key
    has its keys in the order they had.  The [json] library is asked to
    read back the document it has written. *)
Theorem setProperty_then_getProperty
    (fs : filesystem) (filePath text : string) (rawData : pyval)
    (keys : list string) (key : string) (value current : pyval)
    (text' : string) :
  fs !! filePath = Some text -> load text = Some rawData ->
  last keys = Some key ->
  lookup_path rawData keys = Some current ->
  _isJSONObject current = false ->
  dump _indentLevel (setitem_at rawData (init_keys keys) key value)
  = (text', None) ->
  load text' = Some (setitem_at rawData (init_keys keys) key value) ->
  let fs' := <[filePath := text']> fs in
  setProperty load dump filePath keys value fs = (Ok tt, fs') /\
  getProperty load filePath keys fs'
  = (if _isJSONObject value then Raise (NotAPropertyError value)
     else Ok value, fs') /\
  exists before after,
    getObject load filePath (init_keys keys) fs = (Ok (PDict before), fs) /\
    getObject load filePath (init_keys keys) fs' = (Ok (PDict after), fs') /\
    dict_keys after = dict_keys before.
Proof.
  intros Hfile Hload Hlast Hcurrent Hkind Hdump Hback fs'.
  destruct (lookup_path_parent _ _ _ _ Hlast Hcurrent)
    as (parentItems & Hparent & Hget).
  assert (Hin : key ∈ dict_keys parentItems)
    by (apply dict_get_is_Some; rewrite Hget; eauto).
  assert (Hfile' : fs' !! filePath = Some text') by apply lookup_insert_eq.
  pose proof (lookup_path_setitem_at _ key value _ _ Hparent) as Hparent'.
  pose proof (lookup_path_after_setitem _ _ key value _ Hparent) as Hnew.
  rewrite <- (keys_init_last _ _ Hlast) in Hnew.
  split; [|split].
  - by eapply setProperty_writes.
  - apply (getProperty_resolved _ _ _ _ _ _ Hfile' Hback Hnew).
  - exists parentItems, (dict_set parentItems key value). split; [|split].
    + apply (getObject_resolved _ _ _ _ _ _ Hfile Hload Hparent).
    + apply (getObject_resolved _ _ _ _ _ _ Hfile' Hback Hparent').
    + by apply dict_keys_set_present.
Qed.

(** When the last key of the path holds a value of a property type,
    [setObject] raises [NotAObjectError] with that value and nothing is
    written. *)
Theorem setObject_on_property_is_NotAObject
    (fs : filesystem) (filePath text : string) (rawData : pyval)
    (keys : list string) (key : string) (object current : pyval) :
  fs !! filePath = Some text -> load text = Some rawData ->
  last keys = Some key ->
  lookup_path rawData keys = Some current ->
  _isJSONProperty current = true ->
  setObject load dump filePath keys object fs
  = (Raise (NotAObjectError current), fs).
Proof.
  intros Hfile Hload Hlast Hcurrent Hkind.
  destruct (lookup_path_parent _ _ _ _ Hlast Hcurrent)
    as (parentItems & Hparent & Hget).
  apply _getValueOfKeys_Ok in Hparent.
  unfold setObject; run_file Hfile Hload. rewrite Hparent.
  unfold last_key. rewrite Hlast. simpl.
  rewrite bool_decide_eq_true_2
    by (apply dict_get_is_Some; rewrite Hget; eauto).
  simpl. rewrite Hget. simpl. by rewrite Hkind.
Qed.

(** [setObject] on a path that leads to a dictionary replaces it, whatever
    the new value is (its type is not tested): afterwards [getObject] on
    the path returns the new value, or refuses it if its type is one of the
    property types.  The [json] library is asked to read back the document
    it has written. *)
Theorem setObject_then_getObject
    (fs : filesystem) (filePath text : string) (rawData : pyval)
    (keys : list string) (key : string) (object : pyval)
    (items : list (string * pyval)) (text' : string) :
  fs !! filePath = Some text -> load text = Some rawData ->
  last keys = Some key ->
  lookup_path rawData keys = Some (PDict items) ->
  dump _indentLevel (setitem_at rawData (init_keys keys) key object)
  = (text', None) ->
  load text' = Some (setitem_at rawData (init_keys keys) key object) ->
  let fs' := <[filePath := text']> fs in
  setObject load dump filePath keys object fs = (Ok tt, fs') /\
  getObject load filePath keys fs'
  = (if _isJSONProperty object then Raise (NotAObjectError object)
     else Ok object, fs').
Proof.
  intros Hfile Hload Hlast Hcurrent Hdump Hback fs'.
  destruct (lookup_path_parent _ _ _ _ Hlast Hcurrent)
    as (parentItems & Hparent & Hget).
  assert (Hfile' : fs' !! filePath = Some text') by apply lookup_insert_eq.
  pose proof (lookup_path_after_setitem _ _ key object _ Hparent) as Hnew.
  rewrite <- (keys_init_last _ _ Hlast) in Hnew.
  split.
  - apply _getValueOfKeys_Ok in Hparent.
    unfold setObject; run_file Hfile Hload. rewrite Hparent.
    unfold last_key. rewrite Hlast. simpl.
    rewrite bool_decide_eq_true_2
      by (apply dict_get_is_Some; rewrite Hget; eauto).
    simpl. rewrite Hget. simpl.
    apply (writeJSONFile_existing dump _ _ _ _ _ _ Hfile Hdump).
  - apply (getObject_resolved _ _ _ _ _ _ Hfile' Hback Hnew).
Qed.

(** ** Adding *)

(** After [addObject] has added a fresh key with a dictionary to the
    dictionary a path leads to, [getObject] on the path extended by the key
    returns that dictionary, and a second [addObject] with the same key
    raises [JSONKeyAlreadyExists] and writes nothing.  The [json] library
    is asked to read back the document it has written. *)
Theorem addObject_then_getObject
    (fs : filesystem) (filePath text : string) (rawData : pyval)
    (keys : list string) (newKey : string)
    (object parentItems : list (string * pyval)) (text' : string) :
  fs !! filePath = Some text -> load text = Some rawData ->
  lookup_path rawData keys = Some (PDict parentItems) ->
  newKey ∉ dict_keys parentItems ->
  dump _indentLevel (setitem_at rawData keys newKey (PDict object))
  = (text', None) ->
  load text' = Some (setitem_at rawData keys newKey (PDict object)) ->
  let fs' := <[filePath := text']> fs in
  addObject load dump filePath keys newKey (PDict object) fs = (Ok tt, fs') /\
  getObject load filePath (keys ++ [newKey]) fs' = (Ok (PDict object), fs') /\
  addObject load dump filePath keys newKey (PDict object) fs'
  = (Raise (JSONKeyAlreadyExists newKey (dict_keys parentItems ++ [newKey])
              keys), fs').
Proof.
  intros Hfile Hload Hparent Hfresh Hdump Hback fs'.
  assert (Hfile' : fs' !! filePath = Some text') by apply lookup_insert_eq.
  pose proof (lookup_path_setitem_at _ newKey (PDict object) _ _ Hparent)
    as Hparent'.
  pose proof (lookup_path_after_setitem _ _ newKey (PDict object) _ Hparent)
    as Hnew.
  split; [|split].
  - apply _getValueOfKeys_Ok in Hparent.
    unfold addObject; run_file Hfile Hload. rewrite Hparent. simpl.
    rewrite bool_decide_eq_false_2 by done. simpl.
    apply (writeJSONFile_existing dump _ _ _ _ _ _ Hfile Hdump).
  - apply (getObject_resolved _ _ _ _ _ _ Hfile' Hback Hnew).
  - apply _getValueOfKeys_Ok in Hparent'.
    unfold addObject; run_file Hfile' Hback. rewrite Hparent'. simpl.
    rewrite bool_decide_eq_true_2.
    + simpl. by rewrite dict_keys_set_fresh.
    + apply dict_get_is_Some. rewrite dict_get_set_eq. eauto.
Qed.

(** The type of the value is tested before anything is written: for a fresh
    key, [addProperty] with a value whose type is none of the property
    types, and [addObject] with a value that is no dictionary, raise
    [TypeError] and leave the file as it is. *)
Theorem add_rejects_wrong_type
    (fs : filesystem) (filePath text : string) (rawData : pyval)
    (keys : list string) (newKey : string) (value : pyval)
    (parentItems : list (string * pyval)) :
  fs !! filePath = Some text -> load text = Some rawData ->
  lookup_path rawData keys = Some (PDict parentItems) ->
  newKey ∉ dict_keys parentItems ->
  (_isJSONProperty value = false ->
   addProperty load dump filePath keys newKey value fs
   = (Raise (TypeError (type_of value)), fs)) /\
  (_isJSONObject value = false ->
   addObject load dump filePath keys newKey value fs
   = (Raise (TypeError (type_of value)), fs)).
Proof.
  intros Hfile Hload Hparent Hfresh. apply _getValueOfKeys_Ok in Hparent.
  split; intros Hkind.
  - unfold addProperty; run_file Hfile Hload. rewrite Hparent. simpl.
    rewrite bool_decide_eq_false_2 by done. simpl. by rewrite Hkind.
  - unfold addObject; run_file Hfile Hload. rewrite Hparent. simpl.
    rewrite bool_decide_eq_false_2 by done. simpl. by rewrite Hkind.
Qed.

(** [addProperty] and [addObject] never overwrite: when the key is already
    in the dictionary the path leads to, they raise [JSONKeyAlreadyExists]
    with the key, the keys of that dictionary and the path, whatever the
    value is, and nothing is written. *)
Theorem add_never_overwrites
    (fs : filesystem) (filePath text : string) (rawData : pyval)
    (keys : list string) (newKey : string) (value : pyval)
    (parentItems : list (string * pyval)) :
  fs !! filePath = Some text -> load text = Some rawData ->
  lookup_path rawData keys = Some (PDict parentItems) ->
  newKey ∈ dict_keys parentItems ->
  let failure := JSONKeyAlreadyExists newKey (dict_keys parentItems) keys in
  addProperty load dump filePath keys newKey value fs = (Raise failure, fs) /\
  addObject load dump filePath keys newKey value fs = (Raise failure, fs).
Proof.
  intros Hfile Hload Hparent Hin failure. apply _getValueOfKeys_Ok in Hparent.
  split.
  - unfold addProperty; run_file Hfile Hload. rewrite Hparent. simpl.
    by rewrite bool_decide_eq_true_2.
  - unfold addObject; run_file Hfile Hload. rewrite Hparent. simpl.
    by rewrite bool_decide_eq_true_2.
Qed.

(** ** What a write leaves alone in the document *)

Lemma dict_get_set_ne (items : list (string * pyval)) (key other : string)
    (value : pyval) :
  other <> key -> dict_get (dict_set items key value) other = dict_get items other.
Proof.
  intros Hne. induction items as [|[k v] rest IH]; simpl.
  - by rewrite bool_decide_eq_false_2 by congruence.
  - case_bool_decide as Hk; simpl.
    + subst k. by rewrite !bool_decide_eq_false_2 by congruence.
    + by rewrite IH.
Qed.

Lemma dict_get_alter_ne (f : pyval -> pyval) (items : list (string * pyval))
    (key other : string) :
  other <> key -> dict_get (dict_alter f items key) other = dict_get items other.
Proof.
  intros Hne. induction items as [|[k v] rest IH]; simpl; [done|].
  case_bool_decide as Hk; simpl.
  - subst k. by rewrite !bool_decide_eq_false_2 by congruence.
  - by rewrite IH.
Qed.

(** The assignment through [keys] under [key] is not seen along a path that
    neither passes through [keys ++ [key]] nor is a part of [keys]. *)
Lemma lookup_path_setitem_at_other (keys : list string) (key : string)
    (value : pyval) :
  forall (rawData : pyval) (path : list string),
  ~ path `prefix_of` keys -> ~ (keys ++ [key]) `prefix_of` path ->
  lookup_path (setitem_at rawData keys key value) path
  = lookup_path rawData path.
Proof.
  induction keys as [|k keys IH]; intros rawData path Hpart Hthrough.
  - destruct path as [|a path]; [exfalso; apply Hpart, prefix_nil|].
    destruct rawData; try reflexivity. simpl.
    rewrite dict_get_set_ne; [done|].
    intros ->. apply Hthrough. apply prefix_cons, prefix_nil.
  - destruct path as [|a path]; [exfalso; apply Hpart, prefix_nil|].
    destruct rawData; try reflexivity. simpl.
    destruct (decide (a = k)) as [->|Hne].
    + rewrite dict_get_alter_eq.
      destruct (dict_get items k) as [child|]; simpl; [|done].
      apply IH.
      * intros H. apply Hpart. by apply prefix_cons.
      * intros H. apply Hthrough. by apply prefix_cons.
    + by rewrite dict_get_alter_ne.
Qed.

(** After a successful [addProperty], every path that led to a node before
    and is not a part of the path written through leads to the same node:
    [getProperty] and [getObject] answer on it as they did. *)
Theorem addProperty_keeps_other_paths
    (fs : filesystem) (filePath text : string) (rawData : pyval)
    (keys : list string) (newKey : string) (value : pyval)
    (parentItems : list (string * pyval)) (text' : string)
    (path : list string) (node : pyval) :
  fs !! filePath = Some text -> load text = Some rawData ->
  lookup_path rawData keys = Some (PDict parentItems) ->
  newKey ∉ dict_keys parentItems ->
  _isJSONProperty value = true ->
  dump _indentLevel (setitem_at rawData keys newKey value) = (text', None) ->
  load text' = Some (setitem_at rawData keys newKey value) ->
  lookup_path rawData path = Some node ->
  ~ path `prefix_of` keys ->
  let fs' := <[filePath := text']> fs in
  addProperty load dump filePath keys newKey value fs = (Ok tt, fs') /\
  (getProperty load filePath path fs').1 = (getProperty load filePath path fs).1 /\
  (getObject load filePath path fs').1 = (getObject load filePath path fs).1.
Proof.
  intros Hfile Hload Hparent Hfresh Hvalue Hdump Hback Hnode Hpart fs'.
  assert (Hfile' : fs' !! filePath = Some text') by apply lookup_insert_eq.
  assert (Hnode' : lookup_path (setitem_at rawData keys newKey value) path
                   = Some node).
  { rewrite lookup_path_setitem_at_other; [done..|].
    intros [rest ->]. rewrite <- app_assoc, lookup_path_app, Hparent in Hnode.
    simpl in Hnode. apply dict_get_None in Hfresh.
    by rewrite Hfresh in Hnode. }
  pose proof (getProperty_resolved _ _ _ _ _ _ Hfile Hload Hnode) as Hp.
  pose proof (getObject_resolved _ _ _ _ _ _ Hfile Hload Hnode) as Ho.
  pose proof (getProperty_resolved _ _ _ _ _ _ Hfile' Hback Hnode') as Hp'.
  pose proof (getObject_resolved _ _ _ _ _ _ Hfile' Hback Hnode') as Ho'.
  split; [|by rewrite Hp, Ho, Hp', Ho'].
  apply _getValueOfKeys_Ok in Hparent.
  unfold addProperty; run_file Hfile Hload. rewrite Hparent. simpl.
  rewrite bool_decide_eq_false_2 by done. simpl. rewrite Hvalue. simpl.
  apply (writeJSONFile_existing dump _ _ _ _ _ _ Hfile Hdump).
Qed.

(** After a successful [setProperty], every path that led to a node before
    and neither is a part of the path written nor passes through it leads
    to the same node: [getProperty] and [getObject] answer on it as they
    did. *)
Theorem setProperty_keeps_other_paths
    (fs : filesystem) (filePath text : string) (rawData : pyval)
    (keys : list string) (key : string) (value current : pyval)
    (text' : string) (path : list string) (node : pyval) :
  fs !! filePath = Some text -> load text = Some rawData ->
  last keys = Some key ->
  lookup_path rawData keys = Some current ->
  _isJSONObject current = false ->
  dump _indentLevel (setitem_at rawData (init_keys keys) key value)
  = (text', None) ->
  load text' = Some (setitem_at rawData (init_keys keys) key value) ->
  lookup_path rawData path = Some node ->
  ~ path `prefix_of` keys -> ~ keys `prefix_of` path ->
  let fs' := <[filePath := text']> fs in
  setProperty load dump filePath keys value fs = (Ok tt, fs') /\
  (getProperty load filePath path fs').1 = (getProperty load filePath path fs).1 /\
  (getObject load filePath path fs').1 = (getObject load filePath path fs).1.
Proof.
  intros Hfile Hload Hlast Hcurrent Hkind Hdump Hback Hnode Hpart Hthrough fs'.
  assert (Hfile' : fs' !! filePath = Some text') by apply lookup_insert_eq.
  pose proof (keys_init_last _ _ Hlast) as Hkeys.
  assert (Hnode' : lookup_path (setitem_at rawData (init_keys keys) key value)
                     path = Some node).
  { rewrite lookup_path_setitem_at_other; [done| |by rewrite <- Hkeys].
    intros Hpre. apply Hpart. rewrite Hkeys. by apply prefix_app_r. }
  pose proof (getProperty_resolved _ _ _ _ _ _ Hfile Hload Hnode) as Hp.
  pose proof (getObject_resolved _ _ _ _ _ _ Hfile Hload Hnode) as Ho.
  pose proof (getProperty_resolved _ _ _ _ _ _ Hfile' Hback Hnode') as Hp'.
  pose proof (getObject_resolved _ _ _ _ _ _ Hfile' Hback Hnode') as Ho'.
  split; [|by rewrite Hp, Ho, Hp', Ho'].
  by eapply setProperty_writes.
Qed.

(** ** A write that fails *)

(** [addProperty] tests the type of the value and not what it holds.  When
    [json.dump] stops at something it cannot serialise, the file has
    already been opened for writing: the exception reaches the caller and
    the file holds only what was written before it.  If that text does not
    parse, reading the file raises [JSONDecodeError] from then on. *)
Theorem failed_dump_leaves_partial_text
    (fs : filesystem) (filePath text : string) (rawData : pyval)
    (keys : list string) (newKey : string) (value : pyval)
    (parentItems : list (string * pyval)) (text' : string) (e : exn) :
  fs !! filePath = Some text -> load text = Some rawData ->
  lookup_path rawData keys = Some (PDict parentItems) ->
  newKey ∉ dict_keys parentItems ->
  _isJSONProperty value = true ->
  dump _indentLevel (setitem_at rawData keys newKey value) = (text', Some e) ->
  let fs' := <[filePath := text']> fs in
  addProperty load dump filePath keys newKey value fs = (Raise e, fs') /\
  (load text' = None ->
   forall path, getProperty load filePath path fs'
                = (Raise JSONDecodeError, fs')).
Proof.
  intros Hfile Hload Hparent Hfresh Hvalue Hdump fs'. split.
  - apply _getValueOfKeys_Ok in Hparent.
    unfold addProperty; run_file Hfile Hload. rewrite Hparent. simpl.
    rewrite bool_decide_eq_false_2 by done. simpl. rewrite Hvalue. simpl.
    apply (writeJSONFile_existing dump _ _ _ _ _ _ Hfile Hdump).
  - intros Hbroken path.
    assert (Hfile' : fs' !! filePath = Some text') by apply lookup_insert_eq.
    unfold getProperty; unfold bind at 1.
    by rewrite (readJSONFile_malformed load _ _ _ Hfile' Hbroken).
Qed.

(** ** Re-indenting and reading *)

(** Re-indenting changes no answer: on a file whose text parses, the four
    reading operations return or raise after [indentJSONFile] what they did
    before it, on every path.  The [json] library is asked to read back the
    document it has written. *)
Theorem indentJSONFile_keeps_answers
    (fs : filesystem) (filePath text : string) (data : pyval)
    (text' : string) (keys : list string) :
  fs !! filePath = Some text -> load text = Some data ->
  dump _indentLevel data = (text', None) -> load text' = Some data ->
  let once := (indentJSONFile load dump filePath fs).2 in
  (getProperty load filePath keys once).1
  = (getProperty load filePath keys fs).1 /\
  (getObject load filePath keys once).1
  = (getObject load filePath keys fs).1 /\
  (containsProperty load filePath keys once).1
  = (containsProperty load filePath keys fs).1 /\
  (containsObject load filePath keys once).1
  = (containsObject load filePath keys fs).1.
Proof.
  intros Hfile Hload Hdump Hback.
  assert (Honce : indentJSONFile load dump filePath fs
                  = (Ok tt, <[filePath := text']> fs)).
  { unfold indentJSONFile; unfold bind at 1.
    rewrite (readJSONFile_ok load _ _ _ _ Hfile Hload).
    apply (writeJSONFile_existing dump _ _ _ _ _ _ Hfile Hdump). }
  rewrite Honce. simpl.
  assert (Hfile' : <[filePath := text']> fs !! filePath = Some text')
    by apply lookup_insert_eq.
  unfold getProperty, getObject, containsProperty, containsObject, bind.
  rewrite (readJSONFile_ok load _ _ _ _ Hfile Hload),
    (readJSONFile_ok load _ _ _ _ Hfile' Hback).
  unfold lift, raise, ret. simpl.
  destruct (_getValueOfKeys data keys) as [node|e]; simpl; [|done].
  by destruct (_isJSONObject node), (_isJSONProperty node).
Qed.

End FurtherProperties.

(** ** The further properties on the example documents *)

Lemma get_on_resolved_path_example :
  getProperty JsonLib.load "data.json" ["a"; "b"] example_files
  = (Ok (PInt 1), example_files) /\
  getObject JsonLib.load "data.json" ["a"; "b"] example_files
  = (Raise (NotAObjectError (PInt 1)), example_files).
Proof.
  apply (get_on_resolved_path JsonLib.load example_files "data.json"
           example_text example_document ["a"; "b"] (PInt 1));
    vm_compute; reflexivity.
Defined.

Lemma contains_on_resolved_path_example :
  containsProperty JsonLib.load "data.json" ["a"] example_files
  = (Ok false, example_files) /\
  containsObject JsonLib.load "data.json" ["a"] example_files
  = (Ok true, example_files).
Proof.
  apply (contains_on_resolved_path JsonLib.load example_files "data.json"
           example_text example_document ["a"] (PDict [("b", PInt 1)]));
    vm_compute; reflexivity.
Defined.

Lemma contains_true_then_get_returns_example :
  (exists value,
     getProperty JsonLib.load "data.json" ["n"] example_files
     = (Ok value, example_files) /\ _isJSONProperty value = true) /\
  (exists items,
     getObject JsonLib.load "data.json" ["a"] example_files
     = (Ok (PDict items), example_files)).
Proof.
  split.
  - apply (proj1 (contains_true_then_get_returns JsonLib.load example_files
                    "data.json" ["n"])).
    vm_compute. reflexivity.
  - apply (proj2 (contains_true_then_get_returns JsonLib.load example_files
                    "data.json" ["a"])).
    vm_compute. reflexivity.
Defined.

Lemma contains_never_both_example :
  (containsObject JsonLib.load "data.json" ["n"] example_files).1 <> Ok true.
Proof.
  apply (contains_never_both JsonLib.load example_files "data.json" ["n"]).
  vm_compute. reflexivity.
Defined.

Lemma missing_file_example :
  let failure := FileNotFoundError "other.json" in
  readJSONFile JsonLib.load "other.json" example_files
  = (Raise failure, example_files) /\
  writeJSONFile JsonLib.dump "other.json" (PInt 7) example_files
  = (Raise failure, example_files) /\
  getProperty JsonLib.load "other.json" ["a"] example_files
  = (Raise failure, example_files) /\
  setProperty JsonLib.load JsonLib.dump "other.json" ["a"] (PInt 7)
    example_files = (Raise failure, example_files) /\
  addProperty JsonLib.load JsonLib.dump "other.json" ["a"] "c" (PInt 7)
    example_files = (Raise failure, example_files) /\
  containsProperty JsonLib.load "other.json" ["a"] example_files
  = (Raise failure, example_files) /\
  getObject JsonLib.load "other.json" ["a"] example_files
  = (Raise failure, example_files) /\
  setObject JsonLib.load JsonLib.dump "other.json" ["a"] (PInt 7)
    example_files = (Raise failure, example_files) /\
  addObject JsonLib.load JsonLib.dump "other.json" ["a"] "c" (PInt 7)
    example_files = (Raise failure, example_files) /\
  containsObject JsonLib.load "other.json" ["a"] example_files
  = (Raise failure, example_files) /\
  isFormatCorrect JsonLib.load "other.json" example_files
  = (Raise failure, example_files) /\
  indentJSONFile JsonLib.load JsonLib.dump "other.json" example_files
  = (Raise failure, example_files).
Proof.
  apply (missing_file_raises_everywhere JsonLib.load JsonLib.dump
           example_files "other.json" ["a"] "c" (PInt 7)).
  vm_compute. reflexivity.
Defined.

Lemma malformed_file_example :
  readJSONFile JsonLib.load "data.json" malformed_files
  = (Raise JSONDecodeError, malformed_files) /\
  getProperty JsonLib.load "data.json" ["a"] malformed_files
  = (Raise JSONDecodeError, malformed_files) /\
  setProperty JsonLib.load JsonLib.dump "data.json" ["a"] (PInt 7)
    malformed_files = (Raise JSONDecodeError, malformed_files) /\
  addProperty JsonLib.load JsonLib.dump "data.json" ["a"] "c" (PInt 7)
    malformed_files = (Raise JSONDecodeError, malformed_files) /\
  containsProperty JsonLib.load "data.json" ["a"] malformed_files
  = (Raise JSONDecodeError, malformed_files) /\
  getObject JsonLib.load "data.json" ["a"] malformed_files
  = (Raise JSONDecodeError, malformed_files) /\
  setObject JsonLib.load JsonLib.dump "data.json" ["a"] (PInt 7)
    malformed_files = (Raise JSONDecodeError, malformed_files) /\
  addObject JsonLib.load JsonLib.dump "data.json" ["a"] "c" (PInt 7)
    malformed_files = (Raise JSONDecodeError, malformed_files) /\
  containsObject JsonLib.load "data.json" ["a"] malformed_files
  = (Raise JSONDecodeError, malformed_files) /\
  indentJSONFile JsonLib.load JsonLib.dump "data.json" malformed_files
  = (Raise JSONDecodeError, malformed_files).
Proof.
  apply (malformed_file_raises_everywhere JsonLib.load JsonLib.dump
           malformed_files "data.json" "[1, 2" ["a"] "c" (PInt 7));
    vm_compute; reflexivity.
Defined.

Lemma set_missing_last_key_example :
  let failure := JSONKeyNotFoundError "c" ["b"] ["a"] in
  setProperty JsonLib.load JsonLib.dump "data.json" ["a"; "c"] (PInt 7)
    example_files = (Raise failure, example_files) /\
  setObject JsonLib.load JsonLib.dump "data.json" ["a"; "c"] (PInt 7)
    example_files = (Raise failure, example_files).
Proof.
  apply (set_missing_last_key JsonLib.load JsonLib.dump example_files
           "data.json" example_text example_document ["a"; "c"] "c" (PInt 7)
           [("b", PInt 1)]);
    try (vm_compute; reflexivity).
  apply not_elem_of_cons. split; [discriminate | apply not_elem_of_nil].
Defined.

Lemma setProperty_then_getProperty_example :
  let text' := (JsonLib.dump _indentLevel
                  (PDict [("a", PDict [("b", PStr "x")]); ("n", PInt 5)])).1 in
  let fs' := <["data.json" := text']> example_files in
  setProperty JsonLib.load JsonLib.dump "data.json" ["a"; "b"] (PStr "x")
    example_files = (Ok tt, fs') /\
  getProperty JsonLib.load "data.json" ["a"; "b"] fs' = (Ok (PStr "x"), fs') /\
  exists before after,
    getObject JsonLib.load "data.json" ["a"] example_files
    = (Ok (PDict before), example_files) /\
    getObject JsonLib.load "data.json" ["a"] fs' = (Ok (PDict after), fs') /\
    dict_keys after = dict_keys before.
Proof.
  apply (setProperty_then_getProperty JsonLib.load JsonLib.dump example_files
           "data.json" example_text example_document ["a"; "b"] "b"
           (PStr "x") (PInt 1));
    vm_compute; reflexivity.
Defined.

Lemma setObject_on_property_example :
  setObject JsonLib.load JsonLib.dump "data.json" ["n"]
    (PDict [("z", PInt 9)]) example_files
  = (Raise (NotAObjectError (PInt 5)), example_files).
Proof.
  apply (setObject_on_property_is_NotAObject JsonLib.load JsonLib.dump
           example_files "data.json" example_text example_document ["n"] "n"
           (PDict [("z", PInt 9)]) (PInt 5));
    vm_compute; reflexivity.
Defined.

Lemma setObject_then_getObject_example :
  let text' := (JsonLib.dump _indentLevel
                  (PDict [("a", PDict [("z", PInt 9)]); ("n", PInt 5)])).1 in
  let fs' := <["data.json" := text']> example_files in
  setObject JsonLib.load JsonLib.dump "data.json" ["a"] (PDict [("z", PInt 9)])
    example_files = (Ok tt, fs') /\
  getObject JsonLib.load "data.json" ["a"] fs'
  = (Ok (PDict [("z", PInt 9)]), fs').
Proof.
  apply (setObject_then_getObject JsonLib.load JsonLib.dump example_files
           "data.json" example_text example_document ["a"] "a"
           (PDict [("z", PInt 9)]) [("b", PInt 1)]);
    vm_compute; reflexivity.
Defined.

Lemma addObject_then_getObject_example :
  let text' := (JsonLib.dump _indentLevel
                  (PDict [("a", PDict [("b", PInt 1);
                                       ("c", PDict [("z", PInt 9)])]);
                          ("n", PInt 5)])).1 in
  let fs' := <["data.json" := text']> example_files in
  addObject JsonLib.load JsonLib.dump "data.json" ["a"] "c"
    (PDict [("z", PInt 9)]) example_files = (Ok tt, fs') /\
  getObject JsonLib.load "data.json" ["a"; "c"] fs'
  = (Ok (PDict [("z", PInt 9)]), fs') /\
  addObject JsonLib.load JsonLib.dump "data.json" ["a"] "c"
    (PDict [("z", PInt 9)]) fs'
  = (Raise (JSONKeyAlreadyExists "c" ["b"; "c"] ["a"]), fs').
Proof.
  apply (addObject_then_getObject JsonLib.load JsonLib.dump example_files
           "data.json" example_text example_document ["a"] "c"
           [("z", PInt 9)] [("b", PInt 1)]);
    try (vm_compute; reflexivity).
  apply not_elem_of_cons. split; [discriminate | apply not_elem_of_nil].
Defined.

Lemma add_rejects_wrong_type_example :
  addProperty JsonLib.load JsonLib.dump "data.json" ["a"] "c" (PBytes "x")
    example_files = (Raise (TypeError TBytes), example_files) /\
  addObject JsonLib.load JsonLib.dump "data.json" ["a"] "c" (PInt 7)
    example_files = (Raise (TypeError TInt), example_files).
Proof.
  assert (Hfresh : "c" ∉ dict_keys [("b", PInt 1)]).
  { apply not_elem_of_cons. split; [discriminate | apply not_elem_of_nil]. }
  split.
  - apply (proj1 (add_rejects_wrong_type JsonLib.load JsonLib.dump
                    example_files "data.json" example_text example_document
                    ["a"] "c" (PBytes "x") [("b", PInt 1)]
                    eq_refl eq_refl eq_refl Hfresh)).
    reflexivity.
  - apply (proj2 (add_rejects_wrong_type JsonLib.load JsonLib.dump
                    example_files "data.json" example_text example_document
                    ["a"] "c" (PInt 7) [("b", PInt 1)]
                    eq_refl eq_refl eq_refl Hfresh)).
    reflexivity.
Defined.

Lemma add_never_overwrites_example :
  let failure := JSONKeyAlreadyExists "b" ["b"] ["a"] in
  addProperty JsonLib.load JsonLib.dump "data.json" ["a"] "b" (PInt 2)
    example_files = (Raise failure, example_files) /\
  addObject JsonLib.load JsonLib.dump "data.json" ["a"] "b" (PInt 2)
    example_files = (Raise failure, example_files).
Proof.
  apply (add_never_overwrites JsonLib.load JsonLib.dump example_files
           "data.json" example_text example_document ["a"] "b" (PInt 2)
           [("b", PInt 1)]);
    try (vm_compute; reflexivity).
  apply list_elem_of_here.
Defined.

Lemma addProperty_keeps_other_paths_example :
  let text' := (JsonLib.dump _indentLevel
                  (PDict [("a", PDict [("b", PInt 1); ("c", PStr "x")]);
                          ("n", PInt 5)])).1 in
  let fs' := <["data.json" := text']> example_files in
  addProperty JsonLib.load JsonLib.dump "data.json" ["a"] "c" (PStr "x")
    example_files = (Ok tt, fs') /\
  (getProperty JsonLib.load "data.json" ["a"; "b"] fs').1
  = (getProperty JsonLib.load "data.json" ["a"; "b"] example_files).1 /\
  (getObject JsonLib.load "data.json" ["a"; "b"] fs').1
  = (getObject JsonLib.load "data.json" ["a"; "b"] example_files).1.
Proof.
  apply (addProperty_keeps_other_paths JsonLib.load JsonLib.dump example_files
           "data.json" example_text example_document ["a"] "c" (PStr "x")
           [("b", PInt 1)] _ ["a"; "b"] (PInt 1));
    try (vm_compute; reflexivity).
  - apply not_elem_of_cons. split; [discriminate | apply not_elem_of_nil].
  - intros [rest Hrest]. discriminate Hrest.
Defined.

Lemma setProperty_keeps_other_paths_example :
  let text' := (JsonLib.dump _indentLevel
                  (PDict [("a", PDict [("b", PStr "x")]); ("n", PInt 5)])).1 in
  let fs' := <["data.json" := text']> example_files in
  setProperty JsonLib.load JsonLib.dump "data.json" ["a"; "b"] (PStr "x")
    example_files = (Ok tt, fs') /\
  (getProperty JsonLib.load "data.json" ["n"] fs').1
  = (getProperty JsonLib.load "data.json" ["n"] example_files).1 /\
  (getObject JsonLib.load "data.json" ["n"] fs').1
  = (getObject JsonLib.load "data.json" ["n"] example_files).1.
Proof.
  apply (setProperty_keeps_other_paths JsonLib.load JsonLib.dump example_files
           "data.json" example_text example_document ["a"; "b"] "b"
           (PStr "x") (PInt 1) _ ["n"] (PInt 5));
    try (vm_compute; reflexivity).
  - intros [rest Hrest]. discriminate Hrest.
  - intros [rest Hrest]. discriminate Hrest.
Defined.

(** A list that holds a [bytes] object passes the type test; the file is
    left with the text written before the object was met. *)
Lemma failed_dump_example :
  let text' :=
    (JsonLib.dump _indentLevel
       (PDict [("a", PDict [("b", PInt 1)]); ("n", PInt 5);
               ("l", PList [PInt 1; PBytes "x"])])).1 in
  let fs' := <["data.json" := text']> example_files in
  JsonLib.load text' = None /\
  (addProperty JsonLib.load JsonLib.dump "data.json" [] "l"
     (PList [PInt 1; PBytes "x"]) example_files
   = (Raise (TypeError TBytes), fs') /\
   (JsonLib.load text' = None ->
    forall path, getProperty JsonLib.load "data.json" path fs'
                 = (Raise JSONDecodeError, fs'))).
Proof.
  split; [vm_compute; reflexivity|].
  apply (failed_dump_leaves_partial_text JsonLib.load JsonLib.dump
           example_files "data.json" example_text example_document [] "l"
           (PList [PInt 1; PBytes "x"])
           [("a", PDict [("b", PInt 1)]); ("n", PInt 5)]);
    try (vm_compute; reflexivity).
  apply not_elem_of_cons; split; [discriminate|].
  apply not_elem_of_cons; split; [discriminate | apply not_elem_of_nil].
Defined.

Lemma indentJSONFile_keeps_answers_example :
  let once :=
    (indentJSONFile JsonLib.load JsonLib.dump "data.json" example_files).2 in
  (getProperty JsonLib.load "data.json" ["a"; "b"] once).1
  = (getProperty JsonLib.load "data.json" ["a"; "b"] example_files).1 /\
  (getObject JsonLib.load "data.json" ["a"; "b"] once).1
  = (getObject JsonLib.load "data.json" ["a"; "b"] example_files).1 /\
  (containsProperty JsonLib.load "data.json" ["a"; "b"] once).1
  = (containsProperty JsonLib.load "data.json" ["a"; "b"] example_files).1 /\
  (containsObject JsonLib.load "data.json" ["a"; "b"] once).1
  = (containsObject JsonLib.load "data.json" ["a"; "b"] example_files).1.
Proof.
  apply (indentJSONFile_keeps_answers JsonLib.load JsonLib.dump example_files
           "data.json" example_text example_document example_text
           ["a"; "b"]);
    vm_compute; reflexivity.
Defined.
